(** * Agent service: tool registry and conversation driver

    A shallow embedding of [src/agent-service/app.py]: the [MCPClient]
    tool registry ([fetch_all_tools], [execute_tool]) and the
    [BedrockAgent.run] conversation loop, with the properties the
    specification states about them.

    The program is asynchronous Python talking to three outside parties:
    the tool servers (httpx GET and POST), the model backend
    ([bedrock.converse]) and standard output.  The embedding passes the
    state of the outside world explicitly and keeps a trace of every
    outside interaction, so that "no request was issued" is a statement
    about the trace.  Within one call the [await]s run to completion
    one after the other, as those of one coroutine do; the handlers
    share the module level [mcp_client], and fetches that overlap on it
    are modelled by their suspensions (see [Proc]). *)

From Stdlib Require Import ZArith List Lia.
From stdpp Require Import base strings gmap list pretty.
Import ListNotations.

Local Open Scope Z_scope.
#[local] Set Warnings "-register-all".

(** ** Data *)

(** Values of [response.json()] and of the structured arguments of a
    tool call.  [JObj] holds the items of the parsed dict in order;
    numbers are the integers (floats are only ever copied through). *)
Inductive JSON :=
  | JNull
  | JBool (b : bool)
  | JNum (z : Z)
  | JStr (s : string)
  | JArr (items : list JSON)
  | JObj (items : list (string * JSON)).

(** [d.get(key)] on the items of a dict. *)
Fixpoint dict_get (items : list (string * JSON)) (key : string) : option JSON :=
  match items with
  | [] => None
  | (k, v) :: rest => if String.eqb k key then Some v else dict_get rest key
  end.

(** [type(v).__name__], as it appears in the text of an AttributeError. *)
Definition py_type_name (v : JSON) : string :=
  match v with
  | JNull => "NoneType"
  | JBool _ => "bool"
  | JNum _ => "int"
  | JStr _ => "str"
  | JArr _ => "list"
  | JObj _ => "dict"
  end.

(** [for x in v]: the elements a for loop visits, [None] when [v] is not
    iterable (TypeError).  A dict yields its keys, a str its characters. *)
Definition py_iter (v : JSON) : option (list JSON) :=
  match v with
  | JArr items => Some items
  | JObj items => Some (map (fun kv => JStr (fst kv)) items)
  | JStr s => Some (map (fun c => JStr (String c EmptyString)) (String.list_ascii_of_string s))
  | JNull | JBool _ | JNum _ => None
  end.

(** Exceptions caught by [except Exception as e] in the registry.  The
    ones a library call raises carry [str(e)]. *)
Inductive PyExc :=
  | LibraryError (text : string)
  | KeyError (key : string)
  | TypeError
  | AttributeError.

(** Result of [response.json()]. *)
Inductive JsonResult :=
  | JsonRaises (text : string)
  | JsonValue (v : JSON).

(** Result of [await client.get(url)]. *)
Inductive GetResult :=
  | GetRaises (text : string)
  | GetResponse (status_code : Z) (json : JsonResult).

(** Result of [await client.post(url, json=..., timeout=30.0)]. *)
Inductive PostResult :=
  | PostRaises (text : string)
  | PostResponse (status_code : Z) (text : string) (json : JsonResult).

(** A [toolSpec] entry of the catalog, in the backend's format:
    [{"toolSpec": {"name", "description", "inputSchema": {"json"}}}]. *)
Record ToolSpec := mkToolSpec {
  ts_name : JSON;
  ts_description : JSON;
  ts_inputSchema : JSON
}.

(** A tool use whose three keys have been read. *)
Record ToolUse := mkToolUse {
  tu_name : string;
  tu_input : JSON;
  tu_toolUseId : string
}.

(** The [toolUse] member of a content block as it arrives: a dict in
    which any of the three keys may be missing. *)
Record ToolUseDict := mkToolUseDict {
  d_name : option string;
  d_input : option JSON;
  d_toolUseId : option string
}.

(** [tool_use["name"]], [tool_use["input"]], [tool_use["toolUseId"]],
    in this order: the three values, or the key of the KeyError. *)
Definition read_tool_use (d : ToolUseDict) : ToolUse + string :=
  match d_name d with
  | None => inr "name"
  | Some tool_name =>
      match d_input d with
      | None => inr "input"
      | Some tool_input =>
          match d_toolUseId d with
          | None => inr "toolUseId"
          | Some tool_use_id =>
              inl {| tu_name := tool_name; tu_input := tool_input;
                     tu_toolUseId := tool_use_id |}
          end
      end
  end.

(** The [toolResult] member of a content block; [tr_content] lists the
    texts of its [{"text": ...}] entries. *)
Record ToolResult := mkToolResult {
  tr_toolUseId : string;
  tr_content : list string
}.

(** A content block is a dict; the loop asks which keys it has. *)
Record ContentBlock := mkBlock {
  cb_text : option string;
  cb_toolUse : option ToolUseDict;
  cb_toolResult : option ToolResult
}.

Record Message := mkMessage {
  role : string;
  content : option (list ContentBlock)
}.

(** Result of [bedrock.converse(...)]: a [ClientError] with
    [e.response['Error']['Message']], any other exception with [str(e)],
    or a response dict with its [stopReason] and [output.message] keys,
    each of which may be missing. *)
Inductive ConverseResult :=
  | ConverseClientError (message : string)
  | ConverseException (text : string)
  | ConverseResponse (stopReason : option string) (output : option (option Message)).

(** An entry of [tool_calls_log]. *)
Record ToolCall := mkToolCall {
  tool : string;
  input : JSON;
  tool_use_id : string
}.

Record AgentResponse := mkAgentResponse {
  response : string;
  turns : Z;
  tool_calls : list ToolCall
}.

(** Which [return] statement of [run] produced the response. *)
Inductive Outcome :=
  | Completed
  | Truncated
  | Unrecognized
  | Aborted
  | Exhausted.

#[global] Instance Outcome_eq_dec : EqDecision Outcome.
Proof. solve_decision. Defined.

(** Interactions with the outside and calls of [execute_tool], in the
    order they happen; [EvConverse] records the request and its result. *)
Inductive Event :=
  | EvGet (url : string)
  | EvPrint (server_name : string) (e : PyExc)
  | EvExecuteTool (tool_name : string) (tool_input : JSON)
  | EvPost (url : string) (body : JSON)
  | EvConverse (model_id : string) (messages : list Message)
      (tools : option (list ToolSpec)) (result : ConverseResult).

(** [MCPClient]: [tools_cache] is [None] until the first fetch ends.
    [tool_to_server] is the dict restricted to its [str] keys, the only
    ones [execute_tool(tool_name: str)] can look up. *)
Record MCPClient := mkMCPClient {
  tools_cache : option (list ToolSpec);
  tool_to_server : gmap string string
}.

Definition MCPClient_init : MCPClient :=
  {| tools_cache := None; tool_to_server := empty |}.

(** The default of [tool.get("inputSchema", {...})]. *)
Definition default_inputSchema : JSON :=
  JObj [("type", JStr "object"); ("properties", JObj []); ("required", JArr [])].

(** The payloads [execute_tool] serialises. *)
Definition not_found_payload (tool_name : string) : JSON :=
  JObj [("error", JStr ("Tool " +:+ tool_name +:+ " not found"))].

Definition execution_failed_payload (status_code : Z) (text : string) : JSON :=
  JObj [("error", JStr ("Tool execution failed: " +:+ pretty status_code));
        ("details", JStr text)].

Definition execution_error_payload (text : string) : JSON :=
  JObj [("error", JStr ("Tool execution error: " +:+ text))].

(** ** The service, over an arbitrary outside world *)

(** The outside world and the calls into it.  Each call returns its
    result and the world after the call, so a server or the backend may
    answer the same request differently each time.  [json_dumps] is
    [json.dumps] of the standard library; the two URLs are the
    configuration read from the process environment. *)
Class Env := {
  World : Type;
  http_get : World -> string -> GetResult * World;
  http_post : World -> string -> JSON -> PostResult * World;
  converse :
    World -> string -> list Message -> option (list ToolSpec) -> ConverseResult * World;
  json_dumps : JSON -> string;
  MCP_FILESYSTEM_URL : string;
  MCP_CALCULATOR_URL : string
}.

Section Service.

Context {env : Env}.

(** [MCP_SERVERS.items()], in insertion order. *)
Definition MCP_SERVERS : list (string * string) :=
  [("filesystem", MCP_FILESYSTEM_URL); ("calculator", MCP_CALCULATOR_URL)].

(** What a call can read and change: the world, the module level
    [mcp_client], and the trace of interactions so far. *)
Record Sys := mkSys {
  world : World;
  client : MCPClient;
  trace : list Event
}.

Definition with_world (w : World) (s : Sys) : Sys :=
  {| world := w; client := client s; trace := trace s |}.

Definition emit (e : Event) (s : Sys) : Sys :=
  {| world := world s; client := client s; trace := trace s ++ [e] |}.

(** *** MCPClient.fetch_all_tools *)

(** The inner loop [for tool in tools_data.get("tools", [])], on the
    local [all_tools] and on [self.tool_to_server].  Both are mutated
    in place, so what was added before an exception stays. *)
Fixpoint add_tools (server_url : string) (tools : list JSON)
    (all_tools : list ToolSpec) (t2s : gmap string string)
    : list ToolSpec * gmap string string * option PyExc :=
  match tools with
  | [] => (all_tools, t2s, None)
  | JObj fields :: rest =>
      match dict_get fields "name" with
      | None => (all_tools, t2s, Some (KeyError "name"))
      | Some name =>
          let bedrock_tool :=
            {| ts_name := name;
               ts_description := default (JStr "") (dict_get fields "description");
               ts_inputSchema :=
                 default default_inputSchema (dict_get fields "inputSchema") |} in
          let all_tools := all_tools ++ [bedrock_tool] in
          match name with
          | JStr n => add_tools server_url rest all_tools (<[n := server_url]> t2s)
          | JArr _ | JObj _ => (all_tools, t2s, Some TypeError)
          | JNull | JBool _ | JNum _ => add_tools server_url rest all_tools t2s
          end
      end
  | _ :: _ => (all_tools, t2s, Some TypeError)
  end.

(** The body of [try:] for one server, after the GET: what it leaves in
    [all_tools] and [tool_to_server], and the exception if one ends it. *)
Definition read_tools (server_url : string) (r : GetResult)
    (all_tools : list ToolSpec) (t2s : gmap string string)
    : list ToolSpec * gmap string string * option PyExc :=
  match r with
  | GetRaises text => (all_tools, t2s, Some (LibraryError text))
  | GetResponse status_code json =>
      if status_code =? 200 then
        match json with
        | JsonRaises text => (all_tools, t2s, Some (LibraryError text))
        | JsonValue (JObj fields) =>
            match py_iter (default (JArr []) (dict_get fields "tools")) with
            | None => (all_tools, t2s, Some TypeError)
            | Some tools => add_tools server_url tools all_tools t2s
            end
        | JsonValue _ => (all_tools, t2s, Some AttributeError)
        end
      else (all_tools, t2s, None)
  end.

(** One iteration of [for server_name, server_url in MCP_SERVERS.items()]. *)
Definition fetch_server (server_name server_url : string)
    (all_tools : list ToolSpec) (s : Sys) : list ToolSpec * Sys :=
  let url := server_url +:+ "/tools" in
  let '(r, w) := http_get (world s) url in
  let s := emit (EvGet url) (with_world w s) in
  let '(all_tools, t2s, exc) :=
    read_tools server_url r all_tools (tool_to_server (client s)) in
  let s :=
    {| world := world s;
       client := {| tools_cache := tools_cache (client s); tool_to_server := t2s |};
       trace := trace s |} in
  match exc with
  | None => (all_tools, s)
  | Some e => (all_tools, emit (EvPrint server_name e) s)
  end.

Fixpoint fetch_servers (servers : list (string * string))
    (all_tools : list ToolSpec) (s : Sys) : list ToolSpec * Sys :=
  match servers with
  | [] => (all_tools, s)
  | (server_name, server_url) :: rest =>
      let '(all_tools, s) := fetch_server server_name server_url all_tools s in
      fetch_servers rest all_tools s
  end.

Definition fetch_all_tools (s : Sys) : list ToolSpec * Sys :=
  match tools_cache (client s) with
  | Some cached => (cached, s)
  | None =>
      let '(all_tools, s) := fetch_servers MCP_SERVERS [] s in
      (all_tools,
       {| world := world s;
          client := {| tools_cache := Some all_tools;
                       tool_to_server := tool_to_server (client s) |};
          trace := trace s |})
  end.

(** *** MCPClient.execute_tool *)

(** The value handed to [json.dumps] by the [return] that is taken. *)
Definition execute_tool_payload (tool_name : string) (tool_input : JSON) (s : Sys)
    : JSON * Sys :=
  let s := emit (EvExecuteTool tool_name tool_input) s in
  match tool_to_server (client s) !! tool_name with
  | None => (not_found_payload tool_name, s)
  | Some "" => (not_found_payload tool_name, s)
  | Some server_url =>
      let url := server_url +:+ "/execute" in
      let body := JObj [("tool", JStr tool_name); ("arguments", tool_input)] in
      let '(r, w) := http_post (world s) url body in
      let s := emit (EvPost url body) (with_world w s) in
      match r with
      | PostRaises text => (execution_error_payload text, s)
      | PostResponse status_code text json =>
          if status_code =? 200 then
            match json with
            | JsonRaises text => (execution_error_payload text, s)
            | JsonValue (JObj fields) =>
                (default (JObj fields) (dict_get fields "result"), s)
            | JsonValue result =>
                (execution_error_payload
                   ("'" +:+ py_type_name result +:+ "' object has no attribute 'get'"), s)
            end
          else (execution_failed_payload status_code text, s)
      end
  end.

Definition execute_tool (tool_name : string) (tool_input : JSON) (s : Sys)
    : string * Sys :=
  let '(payload, s) := execute_tool_payload tool_name tool_input s in
  (json_dumps payload, s).

(** *** BedrockAgent.run *)

(** The local variables of [run] that the loop updates. *)
Record Locals := mkLocals {
  l_messages : list Message;
  l_tool_calls_log : list ToolCall;
  l_turns : Z
}.

(** [stop_reason == tag], where [stop_reason] is [None] when the
    response has no [stopReason]. *)
Definition stop_reason_is (stop_reason : option string) (tag : string) : bool :=
  match stop_reason with
  | Some r => String.eqb r tag
  | None => false
  end.

(** [f"{stop_reason}"] *)
Definition str_stop_reason (stop_reason : option string) : string :=
  match stop_reason with
  | Some r => r
  | None => "None"
  end.

(** [for content in ...: if "text" in content: text_content += content["text"]] *)
Fixpoint extract_text (blocks : list ContentBlock) (text_content : string) : string :=
  match blocks with
  | [] => text_content
  | c :: rest =>
      match cb_text c with
      | Some t => extract_text rest (text_content +:+ t)
      | None => extract_text rest text_content
      end
  end.

Definition tool_result_block (tool_use_id result : string) : ContentBlock :=
  {| cb_text := None;
     cb_toolUse := None;
     cb_toolResult := Some {| tr_toolUseId := tool_use_id; tr_content := [result] |} |}.

(** [for content in ...: if "toolUse" in content: ...], on
    [tool_calls_log] and the local [tool_results].  A block whose
    [toolUse] lacks a key ends the loop with a KeyError; what was logged
    and dispatched before stays. *)
Fixpoint execute_tools (blocks : list ContentBlock) (tool_calls_log : list ToolCall)
    (tool_results : list ContentBlock) (s : Sys)
    : list ToolCall * list ContentBlock * Sys * option string :=
  match blocks with
  | [] => (tool_calls_log, tool_results, s, None)
  | c :: rest =>
      match cb_toolUse c with
      | Some tool_use =>
          match read_tool_use tool_use with
          | inr key => (tool_calls_log, tool_results, s, Some key)
          | inl tu =>
              let tool_name := tu_name tu in
              let tool_input := tu_input tu in
              let tool_use_id := tu_toolUseId tu in
              let tool_calls_log :=
                tool_calls_log ++
                [{| tool := tool_name; input := tool_input;
                    tool_use_id := tool_use_id |}] in
              let '(result, s) := execute_tool tool_name tool_input s in
              let tool_results :=
                tool_results ++ [tool_result_block tool_use_id result] in
              execute_tools rest tool_calls_log tool_results s
          end
      | None => execute_tools rest tool_calls_log tool_results s
      end
  end.

(** One pass through the body of [while turns < max_turns]: the
    response when a [return] is reached, and the locals after it. *)
Definition run_turn (model_id : string) (tools : list ToolSpec) (l : Locals) (s : Sys)
    : option (Outcome * AgentResponse) * Locals * Sys :=
  let messages := l_messages l in
  let tool_calls_log := l_tool_calls_log l in
  let turns := l_turns l + 1 in
  let toolConfig := match tools with [] => None | _ :: _ => Some tools end in
  let '(r, w) := converse (world s) model_id messages toolConfig in
  let s := emit (EvConverse model_id messages toolConfig r) (with_world w s) in
  let stay := {| l_messages := messages; l_tool_calls_log := tool_calls_log;
                 l_turns := turns |} in
  let abort (error_message : string) :=
    (Some (Aborted, {| response := error_message; turns := turns;
                       tool_calls := tool_calls_log |}), stay, s) in
  match r with
  | ConverseClientError message => abort ("Bedrock API error: " +:+ message)
  | ConverseException text => abort ("Agent error: " +:+ text)
  | ConverseResponse stop_reason None => abort "Agent error: 'output'"
  | ConverseResponse stop_reason (Some None) => abort "Agent error: 'message'"
  | ConverseResponse stop_reason (Some (Some output_message)) =>
      let messages := messages ++ [output_message] in
      let l := {| l_messages := messages; l_tool_calls_log := tool_calls_log;
                  l_turns := turns |} in
      if stop_reason_is stop_reason "end_turn" then
        let text_content := extract_text (default [] (content output_message)) "" in
        (Some (Completed, {| response := text_content; turns := turns;
                             tool_calls := tool_calls_log |}), l, s)
      else if stop_reason_is stop_reason "tool_use" then
        let '(tool_calls_log, tool_results, s, exc) :=
          execute_tools (default [] (content output_message)) tool_calls_log [] s in
        match exc with
        | Some key =>
            (Some (Aborted, {| response := "Agent error: '" +:+ key +:+ "'";
                               turns := turns; tool_calls := tool_calls_log |}),
             {| l_messages := messages; l_tool_calls_log := tool_calls_log;
                l_turns := turns |}, s)
        | None =>
            let messages :=
              messages ++ [{| role := "user"; content := Some tool_results |}] in
            (None, {| l_messages := messages; l_tool_calls_log := tool_calls_log;
                      l_turns := turns |}, s)
        end
      else if stop_reason_is stop_reason "max_tokens" then
        (Some (Truncated, {| response := "Response truncated due to max tokens";
                             turns := turns; tool_calls := tool_calls_log |}), l, s)
      else
        (Some (Unrecognized,
               {| response := "Unexpected stop reason: " +:+ str_stop_reason stop_reason;
                  turns := turns; tool_calls := tool_calls_log |}), l, s)
  end.

(** [while turns < max_turns: ...] followed by the final [return].
    [fuel] bounds the number of passes; [None] means it ran out. *)
Fixpoint run_loop (fuel : nat) (model_id : string) (tools : list ToolSpec)
    (max_turns : Z) (l : Locals) (s : Sys)
    : option (Outcome * AgentResponse * Locals * Sys) :=
  if l_turns l <? max_turns then
    match fuel with
    | O => None
    | S fuel =>
        let '(ret, l, s) := run_turn model_id tools l s in
        match ret with
        | Some (outcome, r) => Some (outcome, r, l, s)
        | None => run_loop fuel model_id tools max_turns l s
        end
    end
  else
    Some (Exhausted,
          {| response := "Max turns reached"; turns := l_turns l;
             tool_calls := l_tool_calls_log l |}, l, s).

(** [BedrockAgent(model_id).run(user_message, max_turns)].  Besides
    the response it gives the outcome, the locals at the [return]
    (with the message history) and the system after the call. *)
Definition run (model_id user_message : string) (max_turns : Z) (s : Sys)
    : option (Outcome * AgentResponse * Locals * Sys) :=
  let messages :=
    [{| role := "user";
        content := Some [{| cb_text := Some user_message; cb_toolUse := None;
                            cb_toolResult := None |}] |}] in
  let '(tools, s) := fetch_all_tools s in
  run_loop (Z.to_nat max_turns) model_id tools max_turns
    {| l_messages := messages; l_tool_calls_log := []; l_turns := 0 |} s.

(** *** Vocabulary of the properties *)

(** What processing a "tools" list adds: the descriptors appended to
    the catalog and the names recorded against the endpoint, up to the
    first entry that raises. *)
Fixpoint contributed_tools (tools : list JSON) : list ToolSpec :=
  match tools with
  | JObj fields :: rest =>
      match dict_get fields "name" with
      | Some name =>
          {| ts_name := name;
             ts_description := default (JStr "") (dict_get fields "description");
             ts_inputSchema :=
               default default_inputSchema (dict_get fields "inputSchema") |}
          :: match name with
             | JArr _ | JObj _ => []
             | _ => contributed_tools rest
             end
      | None => []
      end
  | _ => []
  end.

Fixpoint registered_names (tools : list JSON) : list string :=
  match tools with
  | JObj fields :: rest =>
      match dict_get fields "name" with
      | Some (JStr n) => n :: registered_names rest
      | Some (JNull | JBool _ | JNum _) => registered_names rest
      | _ => []
      end
  | _ => []
  end.

(** The "tools" list an endpoint's answer is processed with, empty
    when the answer is not processed at all. *)
Definition listed_tools (r : GetResult) : list JSON :=
  match r with
  | GetResponse status_code (JsonValue (JObj fields)) =>
      if status_code =? 200
      then default [] (py_iter (default (JArr []) (dict_get fields "tools")))
      else []
  | _ => []
  end.

(** The answers that are not processed at all: the GET raised, the
    status is not 200, or the body is not a JSON object. *)
Definition unread (r : GetResult) : bool :=
  match r with
  | GetResponse status_code (JsonValue (JObj _)) => negb (status_code =? 200)
  | _ => true
  end.

(** The exception that ends the processing of an endpoint's answer. *)
Definition fetch_error (server_url : string) (r : GetResult) : option PyExc :=
  (read_tools server_url r [] empty).2.

(** The line printed by [except Exception as e], if any. *)
Definition printed (server_name : string) (exc : option PyExc) : list Event :=
  match exc with
  | Some e => [EvPrint server_name e]
  | None => []
  end.

(** The two GETs of a fetch on an empty cache, in order. *)
Definition first_get (s : Sys) : GetResult * World :=
  http_get (world s) (MCP_FILESYSTEM_URL +:+ "/tools").

Definition second_get (s : Sys) : GetResult * World :=
  http_get (first_get s).2 (MCP_CALCULATOR_URL +:+ "/tools").

Definition register (server_url : string) (names : list string)
    (t2s : gmap string string) : gmap string string :=
  foldl (fun m n => <[n := server_url]> m) t2s names.

(** The calls a process makes on the shared client, and time passing
    outside (the world becoming [w]). *)
Inductive Call :=
  | CallFetchAllTools
  | CallExecuteTool (tool_name : string) (tool_input : JSON)
  | CallRun (model_id user_message : string) (max_turns : Z)
  | WorldBecomes (w : World).

Definition do_call (c : Call) (s : Sys) : Sys :=
  match c with
  | CallFetchAllTools => (fetch_all_tools s).2
  | CallExecuteTool tool_name tool_input => (execute_tool tool_name tool_input s).2
  | CallRun model_id user_message max_turns =>
      match run model_id user_message max_turns s with
      | Some (_, _, _, s) => s
      | None => s
      end
  | WorldBecomes w => with_world w s
  end.

Definition do_calls (cs : list Call) (s : Sys) : Sys :=
  foldl (fun s c => do_call c s) s cs.

(** *** Overlapping fetches

    The handlers are coroutines on one event loop and share the module
    level [mcp_client].  A [fetch_all_tools] that finds the cache empty
    is suspended at each [await client.get(...)] and once more when the
    [async with] block closes; other coroutines run in between.  What
    is left of a suspended fetch is the endpoints it has still to
    query and its local [all_tools]; with no endpoint left it is about
    to assign the cache. *)
Record FetchTask := mkFetchTask {
  ft_servers : list (string * string);
  ft_all_tools : list ToolSpec
}.

(** The process: the shared system and the fetches in flight. *)
Record Proc := mkProc {
  p_sys : Sys;
  p_fetches : list FetchTask
}.

(** What the event loop may do next: enter [fetch_all_tools] in a new
    coroutine, let the [k]-th suspended fetch go on to its next
    suspension or to its [return], or make a call that nothing
    interrupts. *)
Inductive Step :=
  | BeginFetch
  | ResumeFetch (k : nat)
  | Whole (c : Call).

(** [if self.tools_cache is not None: return self.tools_cache], else
    on to the first [await]. *)
Definition begin_fetch (p : Proc) : Proc :=
  match tools_cache (client (p_sys p)) with
  | Some _ => p
  | None =>
      {| p_sys := p_sys p;
         p_fetches :=
           p_fetches p ++ [{| ft_servers := MCP_SERVERS; ft_all_tools := [] |}] |}
  end.

(** [self.tools_cache = all_tools]. *)
Definition assign_tools_cache (all_tools : list ToolSpec) (s : Sys) : Sys :=
  {| world := world s;
     client := {| tools_cache := Some all_tools;
                  tool_to_server := tool_to_server (client s) |};
     trace := trace s |}.

(** The GET a fetch waits for is answered and the fetch runs to its
    next suspension: the rest of the iteration for that endpoint, on
    the client as it is now; or, with no endpoint left, the assignment
    of the cache and the [return]. *)
Definition resume_fetch (k : nat) (p : Proc) : Proc :=
  match p_fetches p !! k with
  | None => p
  | Some t =>
      match ft_servers t with
      | (server_name, server_url) :: rest =>
          let '(all_tools, s) :=
            fetch_server server_name server_url (ft_all_tools t) (p_sys p) in
          {| p_sys := s;
             p_fetches :=
               <[k := {| ft_servers := rest; ft_all_tools := all_tools |}]> (p_fetches p) |}
      | [] =>
          {| p_sys := assign_tools_cache (ft_all_tools t) (p_sys p);
             p_fetches := delete k (p_fetches p) |}
      end
  end.

Definition step (a : Step) (p : Proc) : Proc :=
  match a with
  | BeginFetch => begin_fetch p
  | ResumeFetch k => resume_fetch k p
  | Whole c => {| p_sys := do_call c (p_sys p); p_fetches := p_fetches p |}
  end.

Definition steps (acts : list Step) (p : Proc) : Proc :=
  foldl (fun p a => step a p) p acts.

(** A process with no fetch in flight. *)
Definition quiet (s : Sys) : Proc := {| p_sys := s; p_fetches := [] |}.

(** One fetch from its call to its [return] with nothing in between. *)
Definition fetch_alone : list Step :=
  BeginFetch :: replicate (S (length MCP_SERVERS)) (ResumeFetch 0).

(** The tool uses the loop reads from a list of blocks, in order, up
    to the first one that lacks a key, and that key if there is one. *)
Fixpoint read_tool_uses (blocks : list ContentBlock) : list ToolUse * option string :=
  match blocks with
  | [] => ([], None)
  | c :: rest =>
      match cb_toolUse c with
      | Some tool_use =>
          match read_tool_use tool_use with
          | inl tu => let '(tus, key) := read_tool_uses rest in (tu :: tus, key)
          | inr key => ([], Some key)
          end
      | None => read_tool_uses rest
      end
  end.

(** The tool-use requests of an assistant message, in order; all of
    them when [missing_key] is [None]. *)
Definition tool_uses (m : Message) : list ToolUse :=
  (read_tool_uses (default [] (content m))).1.

(** The key the first incomplete tool-use block of a message lacks. *)
Definition missing_key (m : Message) : option string :=
  (read_tool_uses (default [] (content m))).2.

(** The [toolUse] dict that holds the three values of a tool use. *)
Definition tool_use_dict (tu : ToolUse) : ToolUseDict :=
  {| d_name := Some (tu_name tu); d_input := Some (tu_input tu);
     d_toolUseId := Some (tu_toolUseId tu) |}.

Definition text_blocks (m : Message) : list string :=
  omap cb_text (default [] (content m)).

Definition log_entry (tu : ToolUse) : ToolCall :=
  {| tool := tu_name tu; input := tu_input tu; tool_use_id := tu_toolUseId tu |}.

(** Dispatching the requests one after the other: the result texts. *)
Fixpoint tool_outputs (tus : list ToolUse) (s : Sys) : list string * Sys :=
  match tus with
  | [] => ([], s)
  | tu :: rest =>
      let '(result, s) := execute_tool (tu_name tu) (tu_input tu) s in
      let '(results, s) := tool_outputs rest s in
      (result :: results, s)
  end.

Definition toolConfig_of (tools : list ToolSpec) : option (list ToolSpec) :=
  match tools with [] => None | _ :: _ => Some tools end.

(** The backend results after which the loop goes on: a response with
    its message, the tool-use stop reason and tool-use blocks that all
    have their keys. *)
Definition requests_tools (r : ConverseResult) : bool :=
  match r with
  | ConverseResponse stop_reason (Some (Some m)) =>
      stop_reason_is stop_reason "tool_use" && bool_decide (missing_key m = None)
  | _ => false
  end.

(** The faults of a backend call, with the message [run] reports. *)
Definition fault_message (r : ConverseResult) : option string :=
  match r with
  | ConverseClientError message => Some ("Bedrock API error: " +:+ message)
  | ConverseException text => Some ("Agent error: " +:+ text)
  | ConverseResponse _ None => Some "Agent error: 'output'"
  | ConverseResponse _ (Some None) => Some "Agent error: 'message'"
  | ConverseResponse _ (Some (Some _)) => None
  end.

Definition converse_results (evs : list Event) : list ConverseResult :=
  omap (fun e => match e with EvConverse _ _ _ r => Some r | _ => None end) evs.

Definition executed_tools (evs : list Event) : list (string * JSON) :=
  omap (fun e => match e with EvExecuteTool n i => Some (n, i) | _ => None end) evs.

(** The events of a call that took the system from [s] to [s']. *)
Definition events_since (s s' : Sys) : list Event :=
  drop (length (trace s)) (trace s').

Definition concat_texts (texts : list string) : string :=
  foldr String.append "" texts.

End Service.

(** ** A scripted world for examples *)

Record MockWorld := mkMockWorld {
  mock_get : string -> GetResult;
  mock_post : string -> JSON -> PostResult;
  mock_replies : list ConverseResult
}.

Definition mock_converse (w : MockWorld) : ConverseResult * MockWorld :=
  match mock_replies w with
  | [] => (ConverseException "no reply scripted", w)
  | r :: rest =>
      (r, {| mock_get := mock_get w; mock_post := mock_post w; mock_replies := rest |})
  end.

(** A serialiser for the values of the examples (no escaping). *)
Definition quote : string := String (Ascii.ascii_of_nat 34) EmptyString.

Fixpoint mock_json_dumps (v : JSON) : string :=
  match v with
  | JNull => "null"
  | JBool b => if b then "true" else "false"
  | JNum z => pretty z
  | JStr s => quote +:+ s +:+ quote
  | JArr items =>
      "[" +:+
      (fix go (items : list JSON) : string :=
         match items with
         | [] => ""
         | x :: rest =>
             mock_json_dumps x +:+ match rest with [] => "" | _ :: _ => ", " +:+ go rest end
         end) items +:+ "]"
  | JObj items =>
      "{" +:+
      (fix go (items : list (string * JSON)) : string :=
         match items with
         | [] => ""
         | (k, x) :: rest =>
             quote +:+ k +:+ quote +:+ ": " +:+ mock_json_dumps x
             +:+ match rest with [] => "" | _ :: _ => ", " +:+ go rest end
         end) items +:+ "}"
  end.

Definition mock_env : Env :=
  {| World := MockWorld;
     http_get w url := (mock_get w url, w);
     http_post w url body := (mock_post w url body, w);
     converse w _ _ _ := mock_converse w;
     json_dumps := mock_json_dumps;
     MCP_FILESYSTEM_URL := "http://mcp-filesystem:3001";
     MCP_CALCULATOR_URL := "http://mcp-calculator:3002" |}.

(** The system at process start, in a given world. *)
Definition boot (w : MockWorld) : @Sys mock_env :=
  @mkSys mock_env w MCPClient_init [].

Definition tools_answer (tools : list JSON) : GetResult :=
  GetResponse 200 (JsonValue (JObj [("tools", JArr tools)])).

Definition named_tool (name : string) : JSON := JObj [("name", JStr name)].

(** Every request fails. *)
Definition outage : MockWorld :=
  {| mock_get _ := GetRaises "connection refused";
     mock_post _ _ := PostRaises "connection refused";
     mock_replies := [] |}.

(** Both endpoints declare a tool named "read". *)
Definition same_name_world : MockWorld :=
  {| mock_get url :=
       if String.eqb url "http://mcp-filesystem:3001/tools"
       then tools_answer [named_tool "read"; named_tool "write"]
       else tools_answer [named_tool "add"; named_tool "read"];
     mock_post url _ := PostResponse 200 "" (JsonValue (JObj [("result", JStr url)]));
     mock_replies := [] |}.

(** The filesystem endpoint lists a second entry without a name. *)
Definition half_broken_world : MockWorld :=
  {| mock_get url :=
       if String.eqb url "http://mcp-filesystem:3001/tools"
       then tools_answer [named_tool "read_file"; JObj [("description", JStr "no name")]]
       else tools_answer [named_tool "add"];
     mock_post _ _ := PostRaises "unused";
     mock_replies := [] |}.

Definition text_block (t : string) : ContentBlock :=
  {| cb_text := Some t; cb_toolUse := None; cb_toolResult := None |}.

Definition tool_use_block (name : string) (args : JSON) (id : string) : ContentBlock :=
  {| cb_text := None;
     cb_toolUse := Some {| d_name := Some name; d_input := Some args;
                           d_toolUseId := Some id |};
     cb_toolResult := None |}.

(** A tool-use block that lacks its "input". *)
Definition tool_use_without_input (name id : string) : ContentBlock :=
  {| cb_text := None;
     cb_toolUse := Some {| d_name := Some name; d_input := None; d_toolUseId := Some id |};
     cb_toolResult := None |}.

Definition assistant (blocks : list ContentBlock) : Message :=
  {| role := "assistant"; content := Some blocks |}.

Definition reply (stop_reason : string) (blocks : list ContentBlock) : ConverseResult :=
  ConverseResponse (Some stop_reason) (Some (Some (assistant blocks))).

(** A calculator endpoint with one tool and a backend script. *)
Definition calc_world (replies : list ConverseResult) : MockWorld :=
  {| mock_get url :=
       if String.eqb url "http://mcp-calculator:3002/tools"
       then tools_answer [named_tool "calc"]
       else GetResponse 503 (JsonRaises "no body");
     mock_post _ _ := PostResponse 200 "" (JsonValue (JObj [("result", JNum 42)]));
     mock_replies := replies |}.

Definition calc_args : JSON := JObj [("a", JNum 6); ("b", JNum 7)].

(** A served tool use followed by one that lacks its "input". *)
Definition broken_blocks : list ContentBlock :=
  [tool_use_block "calc" calc_args "t1"; tool_use_without_input "calc" "t2"].

Definition user_says (t : string) : Message :=
  {| role := "user"; content := Some [text_block t] |}.

(** The locals of [run] when the loop is first reached. *)
Definition seed_locals (user_message : string) : @Locals :=
  {| l_messages := [user_says user_message]; l_tool_calls_log := []; l_turns := 0 |}.

(** The locals after one turn that called "calc". *)
Definition after_calc : Locals :=
  {| l_messages :=
       [user_says "what is 6*7?";
        assistant [tool_use_block "calc" calc_args "t1"];
        {| role := "user"; content := Some [tool_result_block "t1" "42"] |}];
     l_tool_calls_log := [{| tool := "calc"; input := calc_args; tool_use_id := "t1" |}];
     l_turns := 1 |}.

(** A turn that asks for a tool nobody serves, between a text and a
    served tool. *)
Definition mixed_blocks : list ContentBlock :=
  [tool_use_block "calc" calc_args "t1"; text_block "and then";
   tool_use_block "nope" JNull "t2"].

(** What a process may go on to do once the servers are up. *)
Definition later_calls : list (@Call mock_env) :=
  [@WorldBecomes mock_env same_name_world; CallExecuteTool "read" JNull;
   CallRun "m" "hi" 2; CallFetchAllTools].

(** Two requests arrive while the servers are down; the fetch of the
    first one ends during the outage. *)
Definition first_fetch_ends : list (@Step mock_env) :=
  [BeginFetch; BeginFetch; ResumeFetch 0; ResumeFetch 0; ResumeFetch 0].

(** The servers come up and the fetch of the second request ends. *)
Definition second_fetch_ends : list (@Step mock_env) :=
  [Whole (@WorldBecomes mock_env same_name_world);
   ResumeFetch 0; ResumeFetch 0; ResumeFetch 0].

(** What a process may go on to do, with fetches beginning at any time. *)
Definition later_steps : list (@Step mock_env) :=
  [BeginFetch; Whole (@WorldBecomes mock_env same_name_world); BeginFetch;
   ResumeFetch 0; Whole (CallExecuteTool "read" JNull); BeginFetch;
   Whole (CallRun "m" "hi" 2); Whole CallFetchAllTools; ResumeFetch 1].

(** A backend that answers every request with the same tool use. *)
Definition insistent_env : Env :=
  {| World := unit;
     http_get _ _ := (GetRaises "connection refused", tt);
     http_post _ _ _ := (PostRaises "connection refused", tt);
     converse _ _ _ _ := (reply "tool_use" [tool_use_block "calc" calc_args "t1"], tt);
     json_dumps := mock_json_dumps;
     MCP_FILESYSTEM_URL := "http://mcp-filesystem:3001";
     MCP_CALCULATOR_URL := "http://mcp-calculator:3002" |}.

(** The system after the first fetch in [calc_world]. *)
Definition calc_sys (replies : list ConverseResult) : @Sys mock_env :=
  (@fetch_all_tools mock_env (boot (calc_world replies))).2.

(** ** The HTTP handlers and further vocabulary *)

(** What a handler gives back: its return value, or the
    [HTTPException] it raises. *)
Inductive HttpResult (A : Type) :=
  | HttpOk (a : A)
  | HTTPException (status_code : Z) (detail : string).

Arguments HttpOk {A} a.
Arguments HTTPException {A} status_code detail.

(** [AgentRequest]: [max_turns] is [Optional[int]], so a request may
    carry [None] (an explicit null); when the field is left out it is 10. *)
Record AgentRequest := mkAgentRequest {
  req_message : string;
  req_max_turns : option Z
}.

Definition AgentRequest_default (message : string) : AgentRequest :=
  {| req_message := message; req_max_turns := Some 10 |}.

(** The dict [list_tools] returns. *)
Record ToolsListing := mkToolsListing {
  tl_tools : list ToolSpec;
  tl_count : Z
}.

Section Handlers.

Context {env : Env}.

(** Configuration read from the process environment. *)
Variable BEDROCK_MODEL_ID : string.

(** [GET /tools].  Nothing in [fetch_all_tools] raises, so the
    [except] branch is not reached. *)
Definition list_tools (s : Sys) : HttpResult ToolsListing * Sys :=
  let '(tools, s) := fetch_all_tools s in
  (HttpOk {| tl_tools := tools; tl_count := Z.of_nat (length tools) |}, s).

(** [POST /agent/run].  With [max_turns = None], [run] seeds the
    history, fetches the catalog and then raises TypeError at its first
    [turns < max_turns], which the handler turns into a 500. *)
Definition run_agent (request : AgentRequest) (s : Sys)
    : option (HttpResult AgentResponse * Sys) :=
  match req_max_turns request with
  | Some max_turns =>
      match run BEDROCK_MODEL_ID (req_message request) max_turns s with
      | Some (_, result, _, s) => Some (HttpOk result, s)
      | None => None
      end
  | None =>
      let '(_, s) := fetch_all_tools s in
      Some (HTTPException 500
              "'<' not supported between instances of 'int' and 'NoneType'", s)
  end.

End Handlers.

Section Vocabulary.

Context {env : Env}.

Definition get_requests (evs : list Event) : list string :=
  omap (fun e => match e with EvGet url => Some url | _ => None end) evs.

Definition post_requests (evs : list Event) : list (string * JSON) :=
  omap (fun e => match e with EvPost url body => Some (url, body) | _ => None end) evs.

(** The requests sent to the backend: model, history, tool configuration. *)
Definition converse_requests (evs : list Event)
    : list (string * list Message * option (list ToolSpec)) :=
  omap (fun e => match e with
                 | EvConverse model_id messages tools _ => Some (model_id, messages, tools)
                 | _ => None
                 end) evs.

(** The events of a dispatch from a client with lookup map [t2s]. *)
Definition dispatch_event (t2s : gmap string string) (e : Event) : Prop :=
  match e with
  | EvExecuteTool _ _ => True
  | EvPost url _ => exists tool_name server_url,
      t2s !! tool_name = Some server_url /\ url = server_url +:+ "/execute"
  | _ => False
  end.

(** The events of the loop of [run]. *)
Definition loop_event (t2s : gmap string string) (e : Event) : Prop :=
  match e with
  | EvConverse _ _ _ _ => True
  | _ => dispatch_event t2s e
  end.

(** Requests go to a configured endpoint only. *)
Definition configured_contact (e : Event) : Prop :=
  match e with
  | EvGet url =>
      url = MCP_FILESYSTEM_URL +:+ "/tools" \/ url = MCP_CALCULATOR_URL +:+ "/tools"
  | EvPost url _ =>
      url = MCP_FILESYSTEM_URL +:+ "/execute" \/ url = MCP_CALCULATOR_URL +:+ "/execute"
  | _ => True
  end.

Definition configured_routes (t2s : gmap string string) : Prop :=
  forall tool_name server_url,
    t2s !! tool_name = Some server_url ->
    server_url = MCP_FILESYSTEM_URL \/ server_url = MCP_CALCULATOR_URL.

(** The outcome and response text [run] returns after a backend result,
    [None] for a result after which the loop goes on. *)
Definition terminal_response (r : ConverseResult) : option (Outcome * string) :=
  match r with
  | ConverseResponse stop_reason (Some (Some m)) =>
      if stop_reason_is stop_reason "end_turn"
      then Some (Completed, concat_texts (text_blocks m))
      else if stop_reason_is stop_reason "tool_use"
      then (fun key => (Aborted, "Agent error: '" +:+ key +:+ "'")) <$> missing_key m
      else if stop_reason_is stop_reason "max_tokens"
      then Some (Truncated, "Response truncated due to max tokens")
      else Some (Unrecognized, "Unexpected stop reason: " +:+ str_stop_reason stop_reason)
  | _ => (fun error_message => (Aborted, error_message)) <$> fault_message r
  end.

(** The tool uses dispatched in the turn of a backend result. *)
Definition dispatched_uses (r : ConverseResult) : list ToolUse :=
  match r with
  | ConverseResponse stop_reason (Some (Some m)) =>
      if stop_reason_is stop_reason "end_turn" then []
      else if stop_reason_is stop_reason "tool_use" then tool_uses m
      else []
  | _ => []
  end.

(** The message a backend result adds to the history. *)
Definition appended_message (r : ConverseResult) : list Message :=
  match r with
  | ConverseResponse _ (Some (Some m)) => [m]
  | _ => []
  end.

(** A tool definition that is an object with a string name, and its
    descriptor in the backend's format. *)
Definition tool_name_of (tool_def : JSON) : option string :=
  match tool_def with
  | JObj fields =>
      match dict_get fields "name" with
      | Some (JStr n) => Some n
      | _ => None
      end
  | _ => None
  end.

Definition translate (tool_def : JSON) : ToolSpec :=
  match tool_def with
  | JObj fields =>
      {| ts_name := default JNull (dict_get fields "name");
         ts_description := default (JStr "") (dict_get fields "description");
         ts_inputSchema := default default_inputSchema (dict_get fields "inputSchema") |}
  | _ => {| ts_name := JNull; ts_description := JStr ""; ts_inputSchema := default_inputSchema |}
  end.

(** A payload that reports a failed dispatch. *)
Definition is_error_payload (payload : JSON) : Prop :=
  exists text rest, payload = JObj (("error", JStr text) :: rest).

Definition call_of (c : ToolCall) : string * JSON := (tool c, input c).



(** The events of [fetch_all_tools]: none when the cache is filled,
    else the two GETs, each followed by the line printed for it. *)
Definition fetch_events (s : Sys) : list Event :=
  match tools_cache (client s) with
  | Some _ => []
  | None =>
      EvGet (MCP_FILESYSTEM_URL +:+ "/tools")
      :: printed "filesystem" (fetch_error MCP_FILESYSTEM_URL (first_get s).1)
      ++ EvGet (MCP_CALCULATOR_URL +:+ "/tools")
         :: printed "calculator" (fetch_error MCP_CALCULATOR_URL (second_get s).1)
  end.

(** The request a dispatch sends, if any: one POST to the endpoint the
    name is registered with, none when the name is not registered or
    its endpoint is the empty string. *)
Definition posted (t2s : gmap string string) (tool_name : string) (tool_input : JSON)
    : list Event :=
  match t2s !! tool_name with
  | Some server_url =>
      if decide (server_url = "") then []
      else [EvPost (server_url +:+ "/execute")
              (JObj [("tool", JStr tool_name); ("arguments", tool_input)])]
  | None => []
  end.

End Vocabulary.

(** *** More of the scripted world *)

(** Both endpoints answer 503. *)
Definition unavailable : MockWorld :=
  {| mock_get _ := GetResponse 503 (JsonValue (JObj [("tools", JArr [named_tool "ghost"])]));
     mock_post _ _ := PostRaises "unused";
     mock_replies := [] |}.

(** One turn with the calculator, then the answer. *)
Definition calc_replies : list ConverseResult :=
  [reply "tool_use" [tool_use_block "calc" calc_args "t1"];
   reply "end_turn" [text_block "42"]].

Definition calc_run : option (Outcome * AgentResponse * @Locals * @Sys mock_env) :=
  @run mock_env "m" "what is 6*7?" 10 (boot (calc_world calc_replies)).

(** The result of [calc_run], which does return. *)
Definition calc_end : Outcome * AgentResponse * @Locals * @Sys mock_env :=
  match calc_run with
  | Some res => res
  | None => (Exhausted, {| response := ""; turns := 0; tool_calls := [] |},
             seed_locals "", boot outage)
  end.

(** The system after a length-limited answer that holds tool uses. *)
Definition truncated_sys : @Sys mock_env :=
  emit (EvConverse "m" (l_messages (seed_locals "hi")) None (reply "max_tokens" mixed_blocks))
    (calc_sys []).

(** A request with an explicit null budget. *)
Definition null_request : AgentRequest :=
  {| req_message := "hi"; req_max_turns := None |}.

(** ** Properties *)

Section Properties.

Context {env : Env}.

Implicit Types (s : Sys) (l : Locals) (t2s : gmap string string).

(** *** The registry *)

Lemma add_tools_spec server_url tools all_tools t2s :
  (add_tools server_url tools all_tools t2s).1
  = (all_tools ++ contributed_tools tools,
     register server_url (registered_names tools) t2s).
Proof.
  revert all_tools t2s.
  induction tools as [|tool rest IH]; intros all_tools t2s; simpl.
  - by rewrite app_nil_r.
  - destruct tool as [| | | |items|fields]; simpl; try by rewrite app_nil_r.
    destruct (dict_get fields "name") as [name|]; simpl; [|by rewrite app_nil_r].
    destruct name; simpl; rewrite ?IH, <- ?app_assoc; done.
Qed.

Lemma add_tools_exc server_url tools all_tools t2s :
  (add_tools server_url tools all_tools t2s).2 = (add_tools server_url tools [] empty).2.
Proof.
  generalize (@nil ToolSpec) (empty : gmap string string).
  revert all_tools t2s.
  induction tools as [|tool rest IH]; intros all_tools t2s all_tools' t2s'; simpl; [done|].
  destruct tool as [| | | |items|fields]; simpl; try done.
  destruct (dict_get fields "name") as [name|]; simpl; [|done].
  destruct name; simpl; auto.
Qed.

Lemma read_tools_spec server_url r all_tools t2s :
  read_tools server_url r all_tools t2s
  = (all_tools ++ contributed_tools (listed_tools r),
     register server_url (registered_names (listed_tools r)) t2s,
     fetch_error server_url r).
Proof.
  unfold fetch_error.
  destruct r as [text|status_code [text|v]]; simpl; [by rewrite app_nil_r| |].
  { destruct (status_code =? 200); simpl; by rewrite app_nil_r. }
  destruct v; simpl; destruct (status_code =? 200); simpl; try by rewrite app_nil_r.
  destruct (py_iter _) as [tools|]; simpl; [|by rewrite app_nil_r].
  rewrite (surjective_pairing (add_tools _ _ all_tools t2s)).
  by rewrite add_tools_spec, add_tools_exc.
Qed.

Lemma fetch_server_spec server_name server_url all_tools s :
  fetch_server server_name server_url all_tools s
  = let r := (http_get (world s) (server_url +:+ "/tools")).1 in
    (all_tools ++ contributed_tools (listed_tools r),
     {| world := (http_get (world s) (server_url +:+ "/tools")).2;
        client :=
          {| tools_cache := tools_cache (client s);
             tool_to_server :=
               register server_url (registered_names (listed_tools r))
                 (tool_to_server (client s)) |};
        trace := trace s ++ EvGet (server_url +:+ "/tools")
                         :: printed server_name (fetch_error server_url r) |}).
Proof.
  unfold fetch_server.
  destruct (http_get _ _) as [r w]; simpl.
  rewrite read_tools_spec.
  destruct (fetch_error server_url r); simpl; unfold emit; simpl;
    by rewrite <- ?app_assoc.
Qed.

(** A fetch on an empty cache, in closed form. *)
Lemma fetch_all_tools_uncached s :
  tools_cache (client s) = None ->
  fetch_all_tools s
  = let ra := (first_get s).1 in
    let rb := (second_get s).1 in
    let all_tools :=
      contributed_tools (listed_tools ra) ++ contributed_tools (listed_tools rb) in
    (all_tools,
     {| world := (second_get s).2;
        client :=
          {| tools_cache := Some all_tools;
             tool_to_server :=
               register MCP_CALCULATOR_URL (registered_names (listed_tools rb))
                 (register MCP_FILESYSTEM_URL (registered_names (listed_tools ra))
                    (tool_to_server (client s))) |};
        trace :=
          trace s ++
          EvGet (MCP_FILESYSTEM_URL +:+ "/tools")
          :: printed "filesystem" (fetch_error MCP_FILESYSTEM_URL ra) ++
          EvGet (MCP_CALCULATOR_URL +:+ "/tools")
          :: printed "calculator" (fetch_error MCP_CALCULATOR_URL rb) |}).
Proof.
  intros Hcache. unfold fetch_all_tools. rewrite Hcache.
  unfold MCP_SERVERS, fetch_servers.
  rewrite fetch_server_spec. simpl.
  rewrite fetch_server_spec. simpl.
  unfold second_get, first_get. simpl.
  by rewrite <- !app_assoc.
Qed.

(** An answer that is not processed contributes nothing. *)
Lemma unread_contributes_nothing r : unread r = true -> listed_tools r = [].
Proof.
  destruct r as [text|status_code [text|[]]]; simpl; try done.
  by destruct (status_code =? 200).
Qed.

Lemma fetch_all_tools_cached s cached :
  tools_cache (client s) = Some cached -> fetch_all_tools s = (cached, s).
Proof. intros Hcache. unfold fetch_all_tools. by rewrite Hcache. Qed.

Lemma fetch_all_tools_populates s :
  tools_cache (client (fetch_all_tools s).2) = Some (fetch_all_tools s).1.
Proof.
  destruct (tools_cache (client s)) as [cached|] eqn:Hcache.
  - by rewrite (fetch_all_tools_cached _ _ Hcache).
  - by rewrite (fetch_all_tools_uncached _ Hcache).
Qed.

(** *** Dispatch *)

Lemma execute_tool_payload_unknown tool_name tool_input s :
  tool_to_server (client s) !! tool_name = None ->
  execute_tool_payload tool_name tool_input s
  = (not_found_payload tool_name, emit (EvExecuteTool tool_name tool_input) s).
Proof. intros Hnone. unfold execute_tool_payload. simpl. by rewrite Hnone. Qed.

(** A dispatch records itself and at most one POST, and leaves the
    client as it was. *)
Lemma execute_tool_payload_effects tool_name tool_input s :
  client (execute_tool_payload tool_name tool_input s).2 = client s
  /\ exists evs,
       trace (execute_tool_payload tool_name tool_input s).2
       = trace s ++ EvExecuteTool tool_name tool_input :: evs
       /\ converse_results evs = [] /\ executed_tools evs = [].
Proof.
  unfold execute_tool_payload. simpl.
  destruct (tool_to_server (client s) !! tool_name) as [[|c server_url]|]; simpl;
    try (split; [done|exists []; done]).
  destruct (http_post _ _ _) as [r w]; simpl.
  split.
  - repeat case_match; done.
  - exists [EvPost (String c server_url +:+ "/execute")
              (JObj [("tool", JStr tool_name); ("arguments", tool_input)])].
    split; [|done].
    repeat case_match; simpl; by rewrite <- app_assoc.
Qed.

Lemma execute_tool_snd tool_name tool_input s :
  (execute_tool tool_name tool_input s).2 = (execute_tool_payload tool_name tool_input s).2.
Proof. unfold execute_tool. by destruct (execute_tool_payload _ _ _). Qed.

(** A dispatch of a registered name posts once, to its endpoint. *)
Lemma execute_tool_payload_known tool_name tool_input s server_url :
  tool_to_server (client s) !! tool_name = Some server_url ->
  server_url <> "" ->
  trace (execute_tool_payload tool_name tool_input s).2
  = trace s ++
    [EvExecuteTool tool_name tool_input;
     EvPost (server_url +:+ "/execute")
       (JObj [("tool", JStr tool_name); ("arguments", tool_input)])].
Proof.
  intros Hsome Hurl. unfold execute_tool_payload. simpl. rewrite Hsome.
  destruct server_url as [|c url]; [done|].
  destruct (http_post _ _ _) as [r w]. simpl.
  destruct r as [text|status_code text [text'|[]]]; simpl;
    try destruct (status_code =? 200); simpl; by rewrite <- app_assoc.
Qed.

Lemma execute_tool_effects tool_name tool_input s :
  client (execute_tool tool_name tool_input s).2 = client s
  /\ exists evs,
       trace (execute_tool tool_name tool_input s).2
       = trace s ++ EvExecuteTool tool_name tool_input :: evs
       /\ converse_results evs = [] /\ executed_tools evs = [].
Proof.
  unfold execute_tool.
  pose proof (execute_tool_payload_effects tool_name tool_input s) as H.
  by destruct (execute_tool_payload _ _ _).
Qed.

Lemma tool_outputs_effects tus s :
  client (tool_outputs tus s).2 = client s
  /\ length (tool_outputs tus s).1 = length tus
  /\ exists evs,
       trace (tool_outputs tus s).2 = trace s ++ evs
       /\ converse_results evs = []
       /\ executed_tools evs = map (fun tu => (tu_name tu, tu_input tu)) tus.
Proof.
  revert s. induction tus as [|tu rest IH]; intros s; simpl.
  { split; [done|]. split; [done|]. exists []. by rewrite app_nil_r. }
  pose proof (execute_tool_effects (tu_name tu) (tu_input tu) s)
    as (Hclient & evs & Htrace & Hconv & Hexec).
  destruct (execute_tool _ _ _) as [result s1]; simpl in *.
  specialize (IH s1) as (Hclient' & Hlen & evs' & Htrace' & Hconv' & Hexec').
  destruct (tool_outputs rest s1) as [results s2]; simpl in *.
  split; [congruence|]. split; [by rewrite Hlen|].
  exists (EvExecuteTool (tu_name tu) (tu_input tu) :: evs ++ evs').
  rewrite Htrace', Htrace, <- app_assoc. split; [done|].
  unfold converse_results, executed_tools in *. simpl.
  rewrite !omap_app, Hconv, Hconv', Hexec, Hexec'. done.
Qed.

Lemma execute_tools_spec blocks tool_calls_log tool_results s :
  execute_tools blocks tool_calls_log tool_results s
  = let tus := (read_tool_uses blocks).1 in
    (tool_calls_log ++ map log_entry tus,
     tool_results
     ++ zip_with tool_result_block (map tu_toolUseId tus) (tool_outputs tus s).1,
     (tool_outputs tus s).2,
     (read_tool_uses blocks).2).
Proof.
  revert tool_calls_log tool_results s.
  induction blocks as [|c rest IH]; intros tool_calls_log tool_results s; simpl.
  { by rewrite !app_nil_r. }
  destruct (cb_toolUse c) as [d|]; simpl; [|apply IH].
  destruct (read_tool_use d) as [tu|key]; simpl; [|by rewrite !app_nil_r].
  specialize (IH (tool_calls_log ++ [log_entry tu])).
  destruct (read_tool_uses rest) as [tus key]; simpl in *.
  destruct (execute_tool _ _ _) as [result s1]; simpl.
  rewrite IH.
  destruct (tool_outputs _ s1) as [results s2]; simpl.
  by rewrite <- !app_assoc.
Qed.

(** *** One turn *)

Lemma stop_reason_is_eq stop_reason tag :
  stop_reason_is stop_reason tag = true <-> stop_reason = Some tag.
Proof.
  destruct stop_reason as [r|]; simpl; [|done].
  rewrite String.eqb_eq. split; congruence.
Qed.

Lemma extract_text_spec blocks text_content :
  extract_text blocks text_content
  = text_content +:+ concat_texts (omap cb_text blocks).
Proof.
  assert (Hnil : forall a, a +:+ "" = a).
  { induction a as [|c a IHa]; [done|]. change (String c (a +:+ "") = String c a).
    by rewrite IHa. }
  assert (Hassoc : forall a b c, (a +:+ b) +:+ c = a +:+ (b +:+ c)).
  { induction a as [|x a IHa]; intros b c; [done|].
    change (String x ((a +:+ b) +:+ c) = String x (a +:+ (b +:+ c))).
    by rewrite IHa. }
  revert text_content.
  induction blocks as [|c rest IH]; intros text_content; simpl.
  { by rewrite Hnil. }
  destruct (cb_text c) as [t|]; simpl; rewrite IH; [|done].
  apply Hassoc.
Qed.

(** The results after which the loop does not go on are the faults and
    the responses whose stop reason is not the tool-use one (end of
    turn, length limit, anything else, or none). *)
Lemma requests_tools_true r :
  requests_tools r = true
  <-> exists m, r = ConverseResponse (Some "tool_use") (Some (Some m))
                /\ missing_key m = None.
Proof.
  destruct r as [message|text|stop_reason [[m|]|]]; simpl;
    try (split; [done|by intros (? & ? & ?)]).
  rewrite andb_true_iff, stop_reason_is_eq, bool_decide_eq_true. split.
  - intros [-> ?]. eauto.
  - intros (? & ? & ?). by simplify_eq.
Qed.

Lemma requests_tools_false r :
  requests_tools r = false
  <-> is_Some (fault_message r)
      \/ exists stop_reason m,
           r = ConverseResponse stop_reason (Some (Some m))
           /\ (stop_reason <> Some "tool_use" \/ is_Some (missing_key m)).
Proof.
  rewrite <- not_true_iff_false, requests_tools_true.
  destruct r as [message|text|stop_reason [[m|]|]]; simpl;
    try (split; [intros _; left; eauto|by intros _ (? & ? & ?)]).
  split.
  - intros Hne. right. exists stop_reason, m. split; [done|].
    destruct (decide (stop_reason = Some "tool_use")) as [->|]; [|by left].
    right. destruct (missing_key m) eqn:Hkey; [done|]. destruct Hne. eauto.
  - intros [[? Hfault]|(? & ? & ? & [Hne|[? Hkey]])] (m' & ? & Hnone);
      simplify_eq; congruence.
Qed.

(** The turn after a backend fault. *)
Lemma run_turn_fault model_id tools l s r w error_message :
  converse (world s) model_id (l_messages l) (toolConfig_of tools) = (r, w) ->
  fault_message r = Some error_message ->
  run_turn model_id tools l s
  = (Some (Aborted,
           {| response := error_message; turns := l_turns l + 1;
              tool_calls := l_tool_calls_log l |}),
     {| l_messages := l_messages l; l_tool_calls_log := l_tool_calls_log l;
        l_turns := l_turns l + 1 |},
     emit (EvConverse model_id (l_messages l) (toolConfig_of tools) r) (with_world w s)).
Proof.
  intros Hconv Hfault. unfold run_turn. fold (toolConfig_of tools). rewrite Hconv.
  destruct r as [message|text|stop_reason [[m|]|]]; simpl in Hfault; by simplify_eq.
Qed.

(** The turn after an end-of-turn response. *)
Lemma run_turn_end_turn model_id tools l s m w :
  converse (world s) model_id (l_messages l) (toolConfig_of tools)
  = (ConverseResponse (Some "end_turn") (Some (Some m)), w) ->
  run_turn model_id tools l s
  = (Some (Completed,
           {| response := concat_texts (text_blocks m); turns := l_turns l + 1;
              tool_calls := l_tool_calls_log l |}),
     {| l_messages := l_messages l ++ [m]; l_tool_calls_log := l_tool_calls_log l;
        l_turns := l_turns l + 1 |},
     emit (EvConverse model_id (l_messages l) (toolConfig_of tools)
             (ConverseResponse (Some "end_turn") (Some (Some m)))) (with_world w s)).
Proof.
  intros Hconv. unfold run_turn. fold (toolConfig_of tools). rewrite Hconv. simpl.
  by rewrite extract_text_spec.
Qed.

(** The turn after a tool-use response. *)
Lemma run_turn_tool_use_any model_id tools l s stop_reason m w :
  converse (world s) model_id (l_messages l) (toolConfig_of tools)
  = (ConverseResponse stop_reason (Some (Some m)), w) ->
  stop_reason_is stop_reason "tool_use" = true ->
  let s1 := emit (EvConverse model_id (l_messages l) (toolConfig_of tools)
                    (ConverseResponse stop_reason (Some (Some m)))) (with_world w s) in
  let log := l_tool_calls_log l ++ map log_entry (tool_uses m) in
  run_turn model_id tools l s
  = (match missing_key m with
     | Some key =>
         Some (Aborted, {| response := "Agent error: '" +:+ key +:+ "'";
                           turns := l_turns l + 1; tool_calls := log |})
     | None => None
     end,
     {| l_messages :=
          l_messages l ++
          m :: match missing_key m with
               | Some _ => []
               | None =>
                   [{| role := "user";
                       content :=
                         Some (zip_with tool_result_block
                                 (map tu_toolUseId (tool_uses m))
                                 (tool_outputs (tool_uses m) s1).1) |}]
               end;
        l_tool_calls_log := log;
        l_turns := l_turns l + 1 |},
     (tool_outputs (tool_uses m) s1).2).
Proof.
  intros Hconv Hstop. unfold run_turn. fold (toolConfig_of tools). rewrite Hconv.
  apply stop_reason_is_eq in Hstop as ->. simpl.
  rewrite execute_tools_spec. simpl. unfold missing_key, tool_uses.
  destruct (read_tool_uses _).2; simpl; by rewrite <- ?app_assoc.
Qed.

Lemma run_turn_tool_use model_id tools l s stop_reason m w :
  converse (world s) model_id (l_messages l) (toolConfig_of tools)
  = (ConverseResponse stop_reason (Some (Some m)), w) ->
  stop_reason_is stop_reason "tool_use" = true ->
  missing_key m = None ->
  let s1 := emit (EvConverse model_id (l_messages l) (toolConfig_of tools)
                    (ConverseResponse stop_reason (Some (Some m)))) (with_world w s) in
  run_turn model_id tools l s
  = (None,
     {| l_messages :=
          l_messages l ++
          [m; {| role := "user";
                 content :=
                   Some (zip_with tool_result_block (map tu_toolUseId (tool_uses m))
                           (tool_outputs (tool_uses m) s1).1) |}];
        l_tool_calls_log := l_tool_calls_log l ++ map log_entry (tool_uses m);
        l_turns := l_turns l + 1 |},
     (tool_outputs (tool_uses m) s1).2).
Proof.
  intros Hconv Hstop Hkey. simpl.
  rewrite (run_turn_tool_use_any _ _ _ _ _ _ _ Hconv Hstop). simpl. by rewrite Hkey.
Qed.

(** What any turn does to the system, and when it returns. *)
Lemma run_turn_effects model_id tools l s :
  exists r evs,
    (converse (world s) model_id (l_messages l) (toolConfig_of tools)).1 = r
    /\ trace (run_turn model_id tools l s).2
       = trace s ++ EvConverse model_id (l_messages l) (toolConfig_of tools) r :: evs
    /\ converse_results evs = []
    /\ client (run_turn model_id tools l s).2 = client s
    /\ l_turns (run_turn model_id tools l s).1.2 = l_turns l + 1
    /\ match (run_turn model_id tools l s).1.1 with
       | None => requests_tools r = true
       | Some (o, resp) =>
           requests_tools r = false /\ o <> Exhausted /\ turns resp = l_turns l + 1
       end.
Proof.
  destruct (converse (world s) model_id (l_messages l) (toolConfig_of tools))
    as [r w] eqn:Hconv.
  exists r. simpl.
  destruct (fault_message r) as [error_message|] eqn:Hfault.
  { rewrite (run_turn_fault _ _ _ _ _ _ _ Hconv Hfault). exists []. simpl.
    repeat split; try done.
    by destruct r as [?|?|? [[?|]|]]. }
  destruct r as [?|?|stop_reason [[m|]|]]; try done.
  destruct (stop_reason_is stop_reason "tool_use") eqn:Htool.
  { rewrite (run_turn_tool_use_any _ _ _ _ _ _ _ Hconv Htool). simpl.
    match goal with |- context [tool_outputs ?tus ?s1] =>
      pose proof (tool_outputs_effects tus s1) as (Hclient & _ & evs & Htrace & Hconv' & _)
    end.
    exists evs. rewrite Htrace, Hclient, Htool. simpl.
    rewrite <- app_assoc.
    destruct (missing_key m); simpl; repeat split; done. }
  exists []. unfold run_turn. fold (toolConfig_of tools). rewrite Hconv. simpl.
  rewrite Htool.
  destruct (stop_reason_is stop_reason "end_turn");
    [|destruct (stop_reason_is stop_reason "max_tokens")];
    simpl; repeat split; done.
Qed.

(** *** The loop *)

Lemma converse_results_cons model_id messages toolConfig r evs :
  converse_results (EvConverse model_id messages toolConfig r :: evs)
  = r :: converse_results evs.
Proof. done. Qed.

Lemma converse_results_app evs evs' :
  converse_results (evs ++ evs') = converse_results evs ++ converse_results evs'.
Proof. apply omap_app. Qed.

Lemma run_loop_client fuel model_id tools max_turns l s o r l' s' :
  run_loop fuel model_id tools max_turns l s = Some (o, r, l', s') ->
  client s' = client s.
Proof.
  revert l s. induction fuel as [|fuel IH]; intros l s; simpl.
  { case_match; intros; by simplify_eq. }
  destruct (l_turns l <? max_turns); [|intros; by simplify_eq].
  pose proof (run_turn_effects model_id tools l s) as (? & ? & _ & _ & _ & Hclient & _).
  destruct (run_turn model_id tools l s) as [[[[o1 r1]|] l1] s1]; simpl in *.
  - intros; by simplify_eq.
  - intros Hloop. apply IH in Hloop. congruence.
Qed.

(** With one unit of fuel per remaining turn the loop returns; its
    backend calls are as many as the turns it adds, all of them
    tool-use requests except the last one of a run that returns from
    inside the loop. *)
Lemma run_loop_spec fuel model_id tools max_turns l s :
  (Z.to_nat (max_turns - l_turns l) <= fuel)%nat ->
  l_turns l <= max_turns ->
  exists o r l' s' evs,
    run_loop fuel model_id tools max_turns l s = Some (o, r, l', s')
    /\ trace s' = trace s ++ evs
    /\ turns r = l_turns l'
    /\ l_turns l' = l_turns l + Z.of_nat (length (converse_results evs))
    /\ l_turns l' <= max_turns
    /\ (o = Exhausted ->
        l_turns l' = max_turns
        /\ response r = "Max turns reached"
        /\ Forall (fun x => requests_tools x = true) (converse_results evs))
    /\ (o <> Exhausted ->
        exists rs last,
          converse_results evs = rs ++ [last]
          /\ Forall (fun x => requests_tools x = true) rs
          /\ requests_tools last = false).
Proof.
  revert l s. induction fuel as [|fuel IH]; intros l s Hfuel Hle.
  - simpl. destruct (l_turns l <? max_turns) eqn:Hlt; [lia|].
    eexists _, _, _, _, []. split; [done|]. rewrite app_nil_r. simpl.
    repeat split; try done; lia.
  - simpl. destruct (l_turns l <? max_turns) eqn:Hlt.
    2:{ eexists _, _, _, _, []. split; [done|]. rewrite app_nil_r. simpl.
        repeat split; try done; lia. }
    apply Z.ltb_lt in Hlt.
    pose proof (run_turn_effects model_id tools l s)
      as (r0 & evs0 & _ & Htrace & Hnone & _ & Hturns & Hret).
    destruct (run_turn model_id tools l s) as [[[[o1 r1]|] l1] s1]; simpl in *.
    + destruct Hret as (Hterm & Hout & Hresp).
      eexists _, _, _, _, _. split; [done|]. split; [exact Htrace|].
      rewrite converse_results_cons, Hnone. simpl.
      repeat split; try done; try lia.
      intros _. exists [], r0. done.
    + destruct (IH l1 s1) as (o & r & l' & s' & evs & Hloop & Htrace' & ? & Hcount & ? & Hex & Hnex);
        [lia|lia|].
      eexists o, r, l', s', (_ :: evs0 ++ evs). split; [done|].
      split; [by rewrite Htrace', Htrace, <- app_assoc|].
      rewrite converse_results_cons, converse_results_app, Hnone. simpl.
      repeat split; try done; try lia.
      * apply Hex; done.
      * apply Hex; done.
      * constructor; [done|]. by apply Hex.
      * intros Hne. destruct (Hnex Hne) as (rs & last & -> & ? & ?).
        exists (r0 :: rs), last. repeat split; try done. by constructor.
Qed.

Lemma fetch_all_tools_effects s :
  exists evs,
    trace (fetch_all_tools s).2 = trace s ++ evs
    /\ converse_results evs = [] /\ executed_tools evs = [].
Proof.
  destruct (tools_cache (client s)) as [cached|] eqn:Hcache.
  - rewrite (fetch_all_tools_cached _ _ Hcache). exists []. by rewrite app_nil_r.
  - rewrite (fetch_all_tools_uncached _ Hcache). simpl. eexists. split; [done|].
    unfold converse_results, executed_tools. simpl.
    rewrite !omap_app. simpl.
    by do 2 destruct (fetch_error _ _).
Qed.

Lemma events_since_app s s' evs : trace s' = trace s ++ evs -> events_since s s' = evs.
Proof. intros Htrace. unfold events_since. rewrite Htrace. apply drop_app_length. Qed.

Lemma register_lookup server_url names t2s n :
  register server_url names t2s !! n
  = if bool_decide (n ∈ names) then Some server_url else t2s !! n.
Proof.
  unfold register. revert t2s.
  induction names as [|x names IH]; intros t2s; simpl; [done|].
  rewrite IH, lookup_insert.
  destruct (decide (x = n)) as [->|Hne].
  - rewrite (bool_decide_eq_true_2 (n ∈ n :: names)) by left.
    by case_bool_decide.
  - destruct (decide (n ∈ names)) as [Hin|Hnotin].
    + rewrite !bool_decide_eq_true_2; [done|by right|done].
    + rewrite !bool_decide_eq_false_2; [done| |done].
      intros [?|?]%elem_of_cons; congruence.
Qed.

Lemma do_call_client c s :
  is_Some (tools_cache (client s)) -> client (do_call c s) = client s.
Proof.
  intros [cached Hcache]. destruct c as [|tool_name tool_input|model_id msg max_turns|w]; simpl.
  - by rewrite (fetch_all_tools_cached _ _ Hcache).
  - apply execute_tool_effects.
  - unfold run. rewrite (fetch_all_tools_cached _ _ Hcache).
    destruct (run_loop _ _ _ _ _ _) as [[[[o r] l'] s']|] eqn:Hloop; [|done].
    by apply run_loop_client in Hloop.
  - done.
Qed.

Lemma do_calls_client cs s :
  is_Some (tools_cache (client s)) -> client (do_calls cs s) = client s.
Proof.
  revert s. induction cs as [|c cs IH]; intros s Hcache; simpl; [done|].
  unfold do_calls in *. simpl. rewrite IH; rewrite do_call_client; done.
Qed.

Lemma tool_outputs_unknown tus s i tu :
  tus !! i = Some tu ->
  tool_to_server (client s) !! tu_name tu = None ->
  (tool_outputs tus s).1 !! i = Some (json_dumps (not_found_payload (tu_name tu))).
Proof.
  revert s i. induction tus as [|tu0 rest IH]; intros s i Hi Hnone; [done|].
  simpl.
  pose proof (execute_tool_effects (tu_name tu0) (tu_input tu0) s) as [Hclient _].
  destruct i as [|i]; simpl in Hi.
  - simplify_eq. unfold execute_tool.
    rewrite (execute_tool_payload_unknown _ _ _ Hnone).
    by destruct (tool_outputs rest _).
  - destruct (execute_tool _ _ s) as [result s1]; simpl in *.
    specialize (IH s1 i Hi). rewrite Hclient in IH. specialize (IH Hnone).
    by destruct (tool_outputs rest s1).
Qed.

(** With every tool-use block complete, the tool uses read are the
    [toolUse] members of the blocks. *)
Lemma read_tool_uses_blocks blocks :
  (read_tool_uses blocks).2 = None ->
  omap cb_toolUse blocks = map tool_use_dict (read_tool_uses blocks).1.
Proof.
  induction blocks as [|c rest IH]; simpl; [done|].
  destruct (cb_toolUse c) as [d|]; simpl; [|done].
  unfold read_tool_use.
  destruct d as [[name|] [input|] [id|]]; simpl; try done.
  destruct (read_tool_uses rest) as [tus key]; simpl in *.
  intros Hkey. f_equal. by apply IH.
Qed.

(** A backend that always asks for tools exhausts the budget. *)
Lemma run_loop_always_tools fuel model_id tools max_turns l s :
  (forall w mid msgs cfg, requests_tools (converse w mid msgs cfg).1 = true) ->
  (Z.to_nat (max_turns - l_turns l) <= fuel)%nat ->
  exists r l' s',
    run_loop fuel model_id tools max_turns l s = Some (Exhausted, r, l', s').
Proof.
  intros Hall. revert l s. induction fuel as [|fuel IH]; intros l s Hfuel; simpl.
  - destruct (l_turns l <? max_turns) eqn:Hlt; [lia|]. eauto.
  - destruct (l_turns l <? max_turns) eqn:Hlt; [|eauto].
    pose proof (run_turn_effects model_id tools l s)
      as (r0 & evs0 & Hr0 & _ & _ & _ & Hturns & Hret).
    destruct (run_turn model_id tools l s) as [[[[o1 r1]|] l1] s1]; simpl in *.
    + destruct Hret as (Hterm & _). rewrite <- Hr0, Hall in Hterm. done.
    + apply IH. lia.
Qed.

(** A process with a filled cache and no fetch in flight stays so. *)
Lemma step_quiet a p :
  is_Some (tools_cache (client (p_sys p))) ->
  p_fetches p = [] ->
  client (p_sys (step a p)) = client (p_sys p) /\ p_fetches (step a p) = [].
Proof.
  intros Hcache Hnone. destruct a as [|k|c]; simpl.
  - unfold begin_fetch. by destruct Hcache as [cached ->].
  - unfold resume_fetch. by rewrite Hnone.
  - split; [by apply do_call_client|done].
Qed.

Lemma steps_quiet acts p :
  is_Some (tools_cache (client (p_sys p))) ->
  p_fetches p = [] ->
  client (p_sys (steps acts p)) = client (p_sys p) /\ p_fetches (steps acts p) = [].
Proof.
  revert p. induction acts as [|a acts IH]; intros p Hcache Hnone; [done|].
  unfold steps in *. simpl.
  destruct (step_quiet a p Hcache Hnone) as [Hclient Hnone'].
  destruct (IH (step a p)) as [Hclient' ?]; [by rewrite Hclient|done|].
  split; [congruence|done].
Qed.

(** A fetch that nothing interrupts is [fetch_all_tools]. *)
Lemma fetch_alone_spec s :
  steps fetch_alone (quiet s) = quiet (fetch_all_tools s).2.
Proof.
  unfold steps, fetch_alone, fetch_all_tools. simpl. unfold begin_fetch. simpl.
  destruct (tools_cache (client s)) as [cached|] eqn:Hcache; [done|].
  unfold resume_fetch. simpl.
  destruct (fetch_server "filesystem" _ _ _) as [all_tools1 s1]. simpl.
  destruct (fetch_server "calculator" _ _ _) as [all_tools2 s2]. simpl.
  done.
Qed.

(** *** The claims *)

(** C1, as the code has it.  Take a turn where the backend answers
    with the tool-use stop reason.  When every tool-use block of the
    assistant message has its three keys, the tool uses are the
    [toolUse] members of the blocks in order, and [run] appends the
    assistant message and then exactly one message of role "user" whose
    content is one tool-result block per tool use, in that order: the
    block's [toolUseId] is the one of its tool use and its content is
    the one text [execute_tool] returned for it, the tools being
    executed one after the other in that order; the log grows by (tool
    name, arguments, call id) in the same order.  When a tool-use block
    lacks a key, the tool uses before it are logged and executed, no
    user message is appended after the assistant message, and the run
    returns as Aborted with the KeyError's message. *)
Theorem tool_results_paired model_id tools l s stop_reason m w :
  converse (world s) model_id (l_messages l) (toolConfig_of tools)
  = (ConverseResponse stop_reason (Some (Some m)), w) ->
  stop_reason_is stop_reason "tool_use" = true ->
  (missing_key m = None ->
   exists texts l' s',
     run_turn model_id tools l s = (None, l', s')
     /\ omap cb_toolUse (default [] (content m)) = map tool_use_dict (tool_uses m)
     /\ tool_outputs (tool_uses m)
          (emit (EvConverse model_id (l_messages l) (toolConfig_of tools)
                   (ConverseResponse stop_reason (Some (Some m)))) (with_world w s))
        = (texts, s')
     /\ length texts = length (tool_uses m)
     /\ l_messages l'
        = l_messages l ++
          [m; {| role := "user";
                 content :=
                   Some (zip_with
                           (fun tu text =>
                              {| cb_text := None;
                                 cb_toolUse := None;
                                 cb_toolResult :=
                                   Some {| tr_toolUseId := tu_toolUseId tu;
                                           tr_content := [text] |} |})
                           (tool_uses m) texts) |}]
     /\ l_tool_calls_log l'
        = l_tool_calls_log l ++
          map (fun tu => {| tool := tu_name tu; input := tu_input tu;
                            tool_use_id := tu_toolUseId tu |}) (tool_uses m)
     /\ executed_tools (events_since s s')
        = map (fun tu => (tu_name tu, tu_input tu)) (tool_uses m))
  /\ (forall key,
        missing_key m = Some key ->
        exists l' s',
          run_turn model_id tools l s
          = (Some (Aborted,
                   {| response := "Agent error: '" +:+ key +:+ "'";
                      turns := l_turns l + 1;
                      tool_calls := l_tool_calls_log l' |}),
             l', s')
          /\ l_messages l' = l_messages l ++ [m]
          /\ l_tool_calls_log l'
             = l_tool_calls_log l ++
               map (fun tu => {| tool := tu_name tu; input := tu_input tu;
                                 tool_use_id := tu_toolUseId tu |}) (tool_uses m)
          /\ executed_tools (events_since s s')
             = map (fun tu => (tu_name tu, tu_input tu)) (tool_uses m)).
Proof.
  intros Hconv Hstop.
  pose proof (run_turn_tool_use_any _ _ _ _ _ _ _ Hconv Hstop) as Hturn.
  simpl in Hturn.
  match type of Hturn with context [tool_outputs ?tus ?s1] =>
    pose proof (tool_outputs_effects tus s1) as (_ & Hlen & evs & Htrace & _ & Hexec);
    destruct (tool_outputs tus s1) as [texts s'] eqn:Hout
  end.
  simpl in *.
  assert (Hsince : events_since s s'
                   = EvConverse model_id (l_messages l) (toolConfig_of tools)
                       (ConverseResponse stop_reason (Some (Some m))) :: evs).
  { apply events_since_app. rewrite Htrace. by rewrite <- app_assoc. }
  split.
  - intros Hkey. rewrite Hkey in Hturn.
    eexists texts, _, s'. split; [exact Hturn|]. simpl.
    split; [by apply read_tool_uses_blocks|]. split; [done|]. split; [done|].
    split; [by rewrite zip_with_fmap_l|]. split; [done|].
    by rewrite Hsince.
  - intros key Hkey. rewrite Hkey in Hturn.
    exists {| l_messages := l_messages l ++ [m];
              l_tool_calls_log := l_tool_calls_log l ++ map log_entry (tool_uses m);
              l_turns := l_turns l + 1 |}, s'.
    split; [exact Hturn|]. simpl.
    split; [done|]. split; [done|]. by rewrite Hsince.
Qed.

(** C2.  For [max_turns >= 1], [run] returns, with at most
    [max_turns] turns and one backend call per turn.  It returns
    [max_turns] turns from the final [return] (the "Max turns reached"
    response) exactly when every backend call of the run was answered
    by a tool-use reply the loop could process, that is, none gave a
    terminal stop reason or a fault (an exception of the call, or a
    malformed response: one without its message, or with a tool-use
    block that lacks a key); a run that returns otherwise stopped at
    its first backend call that was not such a reply.  In particular,
    with a backend that always asks for tools the run is exhausted
    after [max_turns] turns. *)
Theorem run_turn_budget model_id user_message max_turns s :
  1 <= max_turns ->
  exists o r l' s',
    run model_id user_message max_turns s = Some (o, r, l', s')
    /\ turns r <= max_turns
    /\ Z.of_nat (length (converse_results (events_since s s'))) = turns r
    /\ (turns r = max_turns /\ o = Exhausted /\ response r = "Max turns reached"
        <-> Forall (fun x => requests_tools x = true)
              (converse_results (events_since s s')))
    /\ (o <> Exhausted ->
        exists rs last,
          converse_results (events_since s s') = rs ++ [last]
          /\ Forall (fun x => requests_tools x = true) rs
          /\ requests_tools last = false)
    /\ ((forall w mid msgs cfg, requests_tools (converse w mid msgs cfg).1 = true) ->
        o = Exhausted /\ turns r = max_turns).
Proof.
  intros Hmax. unfold run.
  pose proof (fetch_all_tools_effects s) as (fevs & Hftrace & Hfconv & _).
  destruct (fetch_all_tools s) as [tools s0]; simpl in *.
  match goal with |- context [run_loop ?f ?m ?t ?mx ?l ?s] =>
    pose proof (run_loop_always_tools f m t mx l s) as Halways;
    destruct (run_loop_spec f m t mx l s)
      as (o & r & l' & s' & evs & Hloop & Htrace & Hturns & Hcount & Hle & Hex & Hnex);
      [simpl; lia|simpl; lia|]
  end.
  simpl in *. exists o, r, l', s'. split; [done|].
  rewrite (events_since_app s s' (fevs ++ evs)); [|by rewrite Htrace, Hftrace, <- app_assoc].
  rewrite converse_results_app, Hfconv. simpl.
  split; [lia|]. split; [lia|]. split; [|split; [done|]].
  - split.
    + intros (? & -> & ?). by apply Hex.
    + intros Hall.
      destruct (decide (o = Exhausted)) as [->|Hne].
      * destruct Hex as (? & ? & ?); [done|]. repeat split; [lia|done].
      * destruct (Hnex Hne) as (rs & last & Hrs & _ & Hlast).
        rewrite Hrs in Hall. apply Forall_app in Hall as [_ Hall].
        apply Forall_cons in Hall as [Hall _]. congruence.
  - intros Hall. destruct (Halways Hall) as (r1 & l1 & s1 & Hloop1); [lia|].
    rewrite Hloop in Hloop1. simplify_eq.
    destruct Hex as (? & _); [done|]. split; [done|lia].
Qed.

(** C3, as the code has it.  After a fetch on an empty cache the
    catalog holds the descriptors of the first endpoint followed by
    those of the second, one per declaration, so a name declared twice
    appears twice; the lookup map holds one endpoint per name, the
    second endpoint's for every name it registers and the first
    endpoint's for the other names the first registers; a dispatch of
    a name the second endpoint registers posts to the second
    endpoint. *)
Theorem later_endpoint_wins s tool_name :
  tools_cache (client s) = None ->
  (fetch_all_tools s).1
  = contributed_tools (listed_tools (first_get s).1)
    ++ contributed_tools (listed_tools (second_get s).1)
  /\ tool_to_server (client (fetch_all_tools s).2) !! tool_name
     = (if bool_decide (tool_name ∈ registered_names (listed_tools (second_get s).1))
        then Some MCP_CALCULATOR_URL
        else if bool_decide (tool_name ∈ registered_names (listed_tools (first_get s).1))
        then Some MCP_FILESYSTEM_URL
        else tool_to_server (client s) !! tool_name)
  /\ (tool_name ∈ registered_names (listed_tools (second_get s).1) ->
      MCP_CALCULATOR_URL <> "" ->
      forall tool_input,
        events_since (fetch_all_tools s).2
          (execute_tool tool_name tool_input (fetch_all_tools s).2).2
        = [EvExecuteTool tool_name tool_input;
           EvPost (MCP_CALCULATOR_URL +:+ "/execute")
             (JObj [("tool", JStr tool_name); ("arguments", tool_input)])]).
Proof.
  intros Hcache.
  assert (Hlookup :
    tool_to_server (client (fetch_all_tools s).2) !! tool_name
    = (if bool_decide (tool_name ∈ registered_names (listed_tools (second_get s).1))
       then Some MCP_CALCULATOR_URL
       else if bool_decide (tool_name ∈ registered_names (listed_tools (first_get s).1))
       then Some MCP_FILESYSTEM_URL
       else tool_to_server (client s) !! tool_name)).
  { rewrite (fetch_all_tools_uncached _ Hcache). simpl. by rewrite !register_lookup. }
  split; [by rewrite (fetch_all_tools_uncached _ Hcache)|]. split; [done|].
  intros Hin Hurl tool_input.
  rewrite bool_decide_eq_true_2 in Hlookup by done.
  apply events_since_app. rewrite execute_tool_snd.
  by apply execute_tool_payload_known.
Qed.

(** C4.  A second [fetch_all_tools], whatever the world has become
    since the first, returns the catalog the first returned and leaves
    the system as it is: it issues no request. *)
Theorem fetch_all_tools_idempotent s w :
  (fetch_all_tools (with_world w (fetch_all_tools s).2)).1 = (fetch_all_tools s).1
  /\ (fetch_all_tools (with_world w (fetch_all_tools s).2)).2
     = with_world w (fetch_all_tools s).2
  /\ events_since (fetch_all_tools s).2
       (fetch_all_tools (with_world w (fetch_all_tools s).2)).2 = [].
Proof.
  pose proof (fetch_all_tools_populates s) as Hcache.
  rewrite (fetch_all_tools_cached (with_world w (fetch_all_tools s).2) _ Hcache).
  simpl. repeat split. apply events_since_app. by rewrite app_nil_r.
Qed.

(** C5, as the code has it.  For a tool name that is not in the lookup
    map, [execute_tool] returns the serialised payload
    [{"error": "Tool <name> not found"}] and issues no request; a turn
    that asks for such a tool, in a reply whose tool-use blocks all
    have their keys, does not end the conversation: the loop goes on
    with a history extended by the assistant message and a user
    message, among whose blocks is the tool-result block that carries
    the call identifier of the request and, as its one text, that
    payload. *)
Theorem unknown_tool_is_data tool_name tool_input s :
  tool_to_server (client s) !! tool_name = None ->
  execute_tool tool_name tool_input s
  = (json_dumps (JObj [("error", JStr ("Tool " +:+ tool_name +:+ " not found"))]),
     emit (EvExecuteTool tool_name tool_input) s)
  /\ forall fuel model_id tools max_turns l stop_reason m w tool_use_id,
       l_turns l < max_turns ->
       converse (world s) model_id (l_messages l) (toolConfig_of tools)
       = (ConverseResponse stop_reason (Some (Some m)), w) ->
       stop_reason_is stop_reason "tool_use" = true ->
       missing_key m = None ->
       {| tu_name := tool_name; tu_input := tool_input; tu_toolUseId := tool_use_id |}
         ∈ tool_uses m ->
       exists tool_results l' s',
         run_loop (S fuel) model_id tools max_turns l s
         = run_loop fuel model_id tools max_turns l' s'
         /\ l_messages l'
            = l_messages l ++ [m; {| role := "user"; content := Some tool_results |}]
         /\ {| cb_text := None;
               cb_toolUse := None;
               cb_toolResult :=
                 Some {| tr_toolUseId := tool_use_id;
                         tr_content :=
                           [json_dumps
                              (JObj [("error",
                                      JStr ("Tool " +:+ tool_name +:+ " not found"))])] |} |}
              ∈ tool_results.
Proof.
  intros Hnone. split.
  { unfold execute_tool. by rewrite (execute_tool_payload_unknown _ _ _ Hnone). }
  intros fuel model_id tools max_turns l stop_reason m w tool_use_id
    Hlt Hconv Hstop Hkey Hin.
  pose proof (run_turn_tool_use _ _ _ _ _ _ _ Hconv Hstop Hkey) as Hturn.
  simpl in Hturn.
  eexists _, _, _. split.
  { simpl. apply Z.ltb_lt in Hlt as ->. by rewrite Hturn. }
  split; [done|].
  apply list_elem_of_lookup in Hin as [i Hi].
  apply list_elem_of_lookup. exists i.
  rewrite lookup_zip_with, list_lookup_fmap, Hi. simpl.
  erewrite (tool_outputs_unknown _ _ _ _ Hi); done.
Qed.


(** C8.  When the backend answers a turn with the end-of-turn stop
    reason, the loop returns from the first branch: the response text
    is the concatenation, in order, of the texts of the blocks of the
    assistant message that have one; the turn count includes this
    turn, the log is as it was, and the assistant message is the last
    of the history. *)
Theorem end_turn_completes fuel model_id tools max_turns l s m w :
  l_turns l < max_turns ->
  converse (world s) model_id (l_messages l) (toolConfig_of tools)
  = (ConverseResponse (Some "end_turn") (Some (Some m)), w) ->
  run_loop (S fuel) model_id tools max_turns l s
  = Some (Completed,
          {| response := concat_texts (text_blocks m); turns := l_turns l + 1;
             tool_calls := l_tool_calls_log l |},
          {| l_messages := l_messages l ++ [m];
             l_tool_calls_log := l_tool_calls_log l;
             l_turns := l_turns l + 1 |},
          emit (EvConverse model_id (l_messages l) (toolConfig_of tools)
                  (ConverseResponse (Some "end_turn") (Some (Some m))))
            (with_world w s)).
Proof.
  intros Hlt Hconv. simpl. apply Z.ltb_lt in Hlt as ->.
  by rewrite (run_turn_end_turn _ _ _ _ _ _ Hconv).
Qed.

(** C10.  For [max_turns <= 0] the loop body is never entered: [run]
    returns the "Max turns reached" response with zero turns and an
    empty log, the history is the seeded user message, and the system
    is the one [fetch_all_tools] leaves, so the catalog fetch is the
    only thing that happened: no backend call, no dispatch. *)
Theorem run_without_turns model_id user_message max_turns s :
  max_turns <= 0 ->
  run model_id user_message max_turns s
  = Some (Exhausted,
          {| response := "Max turns reached"; turns := 0; tool_calls := [] |},
          {| l_messages :=
               [{| role := "user";
                   content := Some [{| cb_text := Some user_message;
                                       cb_toolUse := None;
                                       cb_toolResult := None |}] |}];
             l_tool_calls_log := [];
             l_turns := 0 |},
          (fetch_all_tools s).2)
  /\ converse_results (events_since s (fetch_all_tools s).2) = []
  /\ executed_tools (events_since s (fetch_all_tools s).2) = [].
Proof.
  intros Hmax. unfold run.
  pose proof (fetch_all_tools_effects s) as (evs & Htrace & Hconv & Hexec).
  rewrite (events_since_app _ _ _ Htrace).
  destruct (fetch_all_tools s) as [tools s0]. simpl.
  replace (Z.to_nat max_turns) with 0%nat by lia. simpl.
  by replace (0 <? max_turns) with false by lia.
Qed.

End Properties.

(** ** The claims on the scripted world *)

Lemma tool_results_paired_witness :
  @converse mock_env (world (calc_sys [reply "tool_use" mixed_blocks])) "m"
    (l_messages (seed_locals "hi")) (toolConfig_of [])
  = (reply "tool_use" mixed_blocks, calc_world [])
  /\ stop_reason_is (Some "tool_use") "tool_use" = true
  /\ missing_key (assistant mixed_blocks) = None
  /\ exists l' s',
       @run_turn mock_env "m" [] (seed_locals "hi") (calc_sys [reply "tool_use" mixed_blocks])
       = (None, l', s')
       /\ l_messages l'
          = [user_says "hi";
             assistant mixed_blocks;
             {| role := "user";
                content :=
                  Some [{| cb_text := None; cb_toolUse := None;
                           cb_toolResult :=
                             Some {| tr_toolUseId := "t1"; tr_content := ["42"] |} |};
                        {| cb_text := None; cb_toolUse := None;
                           cb_toolResult :=
                             Some {| tr_toolUseId := "t2";
                                     tr_content :=
                                       [mock_json_dumps
                                          (not_found_payload "nope")] |} |}] |}]
       /\ l_tool_calls_log l'
          = [{| tool := "calc"; input := calc_args; tool_use_id := "t1" |};
             {| tool := "nope"; input := JNull; tool_use_id := "t2" |}]
       /\ executed_tools (events_since (calc_sys [reply "tool_use" mixed_blocks]) s')
          = [("calc", calc_args); ("nope", JNull)].
Proof.
  split; [reflexivity|]. split; [reflexivity|]. split; [reflexivity|].
  destruct (@tool_results_paired mock_env "m" [] (seed_locals "hi")
              (calc_sys [reply "tool_use" mixed_blocks]) (Some "tool_use")
              (assistant mixed_blocks) (calc_world []) eq_refl eq_refl)
    as [Hcomplete _].
  destruct (Hcomplete eq_refl)
    as (texts & l' & s' & Hturn & _ & Hout & _ & Hmessages & Hlog & Hexec).
  exists l', s'. split; [exact Hturn|].
  vm_compute in Hout. injection Hout as <- _.
  split; [exact Hmessages|]. split; [exact Hlog|exact Hexec].
Defined.

(** C1 at an input that refutes it: the backend answers with the
    tool-use stop reason, the first tool-use block is complete and the
    second lacks its "input".  The first tool is logged and executed,
    then the turn ends the run with the KeyError's message; the history
    ends with the assistant message, and no user message with tool
    results is inserted. *)
Lemma incomplete_tool_use_ends_run :
  @converse mock_env (world (calc_sys [reply "tool_use" broken_blocks])) "m"
    (l_messages (seed_locals "hi")) (toolConfig_of [])
  = (reply "tool_use" broken_blocks, calc_world [])
  /\ exists s',
       @run_turn mock_env "m" [] (seed_locals "hi") (calc_sys [reply "tool_use" broken_blocks])
       = (Some (Aborted,
                {| response := "Agent error: 'input'"; turns := 1;
                   tool_calls :=
                     [{| tool := "calc"; input := calc_args; tool_use_id := "t1" |}] |}),
          {| l_messages := [user_says "hi"; assistant broken_blocks];
             l_tool_calls_log :=
               [{| tool := "calc"; input := calc_args; tool_use_id := "t1" |}];
             l_turns := 1 |},
          s')
       /\ executed_tools (events_since (calc_sys [reply "tool_use" broken_blocks]) s')
          = [("calc", calc_args)].
Proof. split; [reflexivity|]. eexists. split; reflexivity. Qed.

Lemma run_turn_budget_witness :
  1 <= 3
  /\ exists r l' s',
       @run insistent_env "m" "loop" 3 (@mkSys insistent_env tt MCPClient_init [])
       = Some (Exhausted, r, l', s')
       /\ turns r = 3.
Proof.
  split; [lia|].
  destruct (@run_turn_budget insistent_env "m" "loop" 3
              (@mkSys insistent_env tt MCPClient_init []))
    as (o & r & l' & s' & Hrun & _ & _ & _ & _ & Hall); [lia|].
  destruct Hall as [-> Hturns]; [intros; reflexivity|].
  exists r, l', s'. split; [exact Hrun|exact Hturns].
Defined.

(** Both endpoints of [same_name_world] declare "read", and the catalog
    lists it twice: the names of the merged catalog are not unique. *)
Lemma catalog_names_not_unique :
  ~ NoDup (map ts_name (@fetch_all_tools mock_env (boot same_name_world)).1).
Proof.
  vm_compute. intros Hnodup.
  apply NoDup_cons in Hnodup as [Hnotin _]. apply Hnotin.
  rewrite !elem_of_cons. auto.
Qed.

Lemma later_endpoint_wins_witness :
  tools_cache (client (boot same_name_world)) = None
  /\ map ts_name (@fetch_all_tools mock_env (boot same_name_world)).1
     = [JStr "read"; JStr "write"; JStr "add"; JStr "read"]
  /\ tool_to_server (client (@fetch_all_tools mock_env (boot same_name_world)).2) !! "read"
     = Some "http://mcp-calculator:3002"
  /\ events_since (@fetch_all_tools mock_env (boot same_name_world)).2
       (@execute_tool mock_env "read" JNull
          (@fetch_all_tools mock_env (boot same_name_world)).2).2
     = [EvExecuteTool "read" JNull;
        EvPost "http://mcp-calculator:3002/execute"
          (JObj [("tool", JStr "read"); ("arguments", JNull)])].
Proof.
  split; [reflexivity|].
  destruct (@later_endpoint_wins mock_env (boot same_name_world) "read" eq_refl)
    as (Hcatalog & Hlookup & Hdispatch).
  split; [by rewrite Hcatalog|]. split; [exact Hlookup|].
  apply Hdispatch; [apply list_elem_of_In; vm_compute; auto|discriminate].
Defined.

(** The payload for an unknown tool names the tool; it is not the
    fixed [{"error": "tool not found"}]. *)
Lemma unknown_tool_payload_differs :
  tool_to_server (client (boot outage)) !! "calc" = None
  /\ (@execute_tool_payload mock_env "calc" calc_args (boot outage)).1
     = JObj [("error", JStr "Tool calc not found")]
  /\ (@execute_tool_payload mock_env "calc" calc_args (boot outage)).1
     <> JObj [("error", JStr "tool not found")].
Proof. split; [reflexivity|]. split; [reflexivity|]. vm_compute. discriminate. Qed.

Lemma unknown_tool_is_data_witness :
  tool_to_server (client (calc_sys [reply "tool_use" mixed_blocks])) !! "nope" = None
  /\ @execute_tool mock_env "nope" JNull (calc_sys [reply "tool_use" mixed_blocks])
     = (mock_json_dumps (JObj [("error", JStr "Tool nope not found")]),
        emit (EvExecuteTool "nope" JNull) (calc_sys [reply "tool_use" mixed_blocks]))
  /\ exists tool_results l' s',
       @run_loop mock_env 3 "m" [] 3 (seed_locals "hi") (calc_sys [reply "tool_use" mixed_blocks])
       = @run_loop mock_env 2 "m" [] 3 l' s'
       /\ l_messages l'
          = l_messages (seed_locals "hi")
            ++ [assistant mixed_blocks; {| role := "user"; content := Some tool_results |}]
       /\ {| cb_text := None; cb_toolUse := None;
             cb_toolResult :=
               Some {| tr_toolUseId := "t2";
                       tr_content :=
                         [mock_json_dumps
                            (JObj [("error", JStr "Tool nope not found")])] |} |}
            ∈ tool_results.
Proof.
  split; [reflexivity|].
  destruct (@unknown_tool_is_data mock_env "nope" JNull
              (calc_sys [reply "tool_use" mixed_blocks]) eq_refl) as [Hdata Hturn].
  split; [exact Hdata|].
  apply (Hturn 2%nat "m" [] 3 (seed_locals "hi") (Some "tool_use")
           (assistant mixed_blocks) (calc_world []) "t2");
    [reflexivity|reflexivity|reflexivity|reflexivity|].
  apply list_elem_of_In. vm_compute. auto.
Defined.

(** C6 at the failing input: the filesystem endpoint of
    [half_broken_world] fails on its second entry (the line is printed),
    yet its first tool is in the catalog and in the lookup map. *)
Lemma failed_endpoint_keeps_tools :
  map ts_name (@fetch_all_tools mock_env (boot half_broken_world)).1
  = [JStr "read_file"; JStr "add"]
  /\ trace (@fetch_all_tools mock_env (boot half_broken_world)).2
     = [EvGet "http://mcp-filesystem:3001/tools";
        EvPrint "filesystem" (KeyError "name");
        EvGet "http://mcp-calculator:3002/tools"]
  /\ tool_to_server (client (@fetch_all_tools mock_env (boot half_broken_world)).2)
       !! "read_file"
     = Some "http://mcp-filesystem:3001".
Proof. repeat split; reflexivity. Qed.


Lemma end_turn_completes_witness :
  l_turns after_calc < 10
  /\ @converse mock_env
       (world (calc_sys [reply "end_turn"
                           [text_block "4"; tool_use_block "calc" JNull "t9"; text_block "2"]]))
       "m" (l_messages after_calc) (toolConfig_of [])
     = (reply "end_turn" [text_block "4"; tool_use_block "calc" JNull "t9"; text_block "2"],
        calc_world [])
  /\ @run_loop mock_env 9 "m" [] 10 after_calc
       (calc_sys [reply "end_turn"
                    [text_block "4"; tool_use_block "calc" JNull "t9"; text_block "2"]])
     = Some (Completed,
             {| response := "42"; turns := 2; tool_calls := l_tool_calls_log after_calc |},
             {| l_messages :=
                  l_messages after_calc
                  ++ [assistant [text_block "4"; tool_use_block "calc" JNull "t9";
                                 text_block "2"]];
                l_tool_calls_log := l_tool_calls_log after_calc;
                l_turns := 2 |},
             emit (EvConverse "m" (l_messages after_calc) None
                     (reply "end_turn"
                        [text_block "4"; tool_use_block "calc" JNull "t9"; text_block "2"]))
               (calc_sys [])).
Proof.
  split; [reflexivity|]. split; [reflexivity|].
  apply (@end_turn_completes mock_env 8 "m" [] 10 after_calc
           (calc_sys [reply "end_turn"
                        [text_block "4"; tool_use_block "calc" JNull "t9"; text_block "2"]])
           (assistant [text_block "4"; tool_use_block "calc" JNull "t9"; text_block "2"])
           (calc_world [])); reflexivity.
Defined.

(** The first fetch happens during an outage; the servers then come up
    ([same_name_world]) and the process goes on, but the catalog stays
    empty. *)
Lemma run_without_turns_witness :
  -1 <= 0
  /\ @run mock_env "m" "hi" (-1) (boot (calc_world [reply "end_turn" [text_block "unused"]]))
     = Some (Exhausted,
             {| response := "Max turns reached"; turns := 0; tool_calls := [] |},
             seed_locals "hi",
             calc_sys [reply "end_turn" [text_block "unused"]])
  /\ trace (calc_sys [reply "end_turn" [text_block "unused"]])
     = [EvGet "http://mcp-filesystem:3001/tools"; EvGet "http://mcp-calculator:3002/tools"].
Proof.
  split; [lia|]. split; [|reflexivity].
  apply (@run_without_turns mock_env "m" "hi" (-1)
           (boot (calc_world [reply "end_turn" [text_block "unused"]]))).
  lia.
Defined.

(** ** The scenarios of the specification *)

Example scenario_answer :
  option_map (fun x => x.1.1)
    (@run mock_env "m" "what is 6*7?" 10 (boot (calc_world [reply "end_turn" [text_block "42"]])))
  = Some (Completed, {| response := "42"; turns := 1; tool_calls := [] |}).
Proof. reflexivity. Qed.

Example scenario_tool_then_answer :
  option_map (fun x => x.1.1)
    (@run mock_env "m" "what is 6*7?" 10
       (boot (calc_world [reply "tool_use" [tool_use_block "calc" calc_args "t1"];
                          reply "end_turn" [text_block "42"]])))
  = Some (Completed,
          {| response := "42"; turns := 2;
             tool_calls := [{| tool := "calc"; input := calc_args; tool_use_id := "t1" |}] |}).
Proof. reflexivity. Qed.

Example scenario_always_tool_use :
  option_map (fun x => (x.1.1.1, turns x.1.1.2))
    (@run insistent_env "m" "loop" 3 (@mkSys insistent_env tt MCPClient_init []))
  = Some (Exhausted, 3).
Proof. reflexivity. Qed.

Example scenario_exhausted :
  option_map (fun x => (x.1.1.1, turns x.1.1.2))
    (@run mock_env "m" "loop" 3
       (boot (calc_world (replicate 4 (reply "tool_use" [tool_use_block "calc" calc_args "t1"])))))
  = Some (Exhausted, 3).
Proof. reflexivity. Qed.


(** ** Further properties of the registry, the loop and the handlers *)

Section MoreProperties.

Context {env : Env}.

Implicit Types (s : Sys) (l : Locals) (t2s : gmap string string).

(** *** Events of a dispatch *)

Lemma execute_tool_trace tool_name tool_input s :
  trace (execute_tool tool_name tool_input s).2
  = trace s ++ EvExecuteTool tool_name tool_input
               :: posted (tool_to_server (client s)) tool_name tool_input.
Proof.
  rewrite execute_tool_snd. unfold posted.
  destruct (tool_to_server (client s) !! tool_name) as [server_url|] eqn:Hlookup.
  - destruct (decide (server_url = "")) as [->|Hurl].
    + unfold execute_tool_payload. simpl. by rewrite Hlookup.
    + by apply execute_tool_payload_known.
  - by rewrite (execute_tool_payload_unknown _ _ _ Hlookup).
Qed.

Lemma posted_dispatch_event t2s tool_name tool_input :
  Forall (dispatch_event t2s) (posted t2s tool_name tool_input).
Proof.
  unfold posted. destruct (t2s !! tool_name) as [server_url|] eqn:Hlookup; [|constructor].
  destruct (decide (server_url = "")); constructor; [|constructor].
  simpl. eauto.
Qed.

Lemma dispatch_event_loop_event t2s e : dispatch_event t2s e -> loop_event t2s e.
Proof. by destruct e. Qed.

Lemma executed_tools_app evs evs' :
  executed_tools (evs ++ evs') = executed_tools evs ++ executed_tools evs'.
Proof. apply omap_app. Qed.

Lemma converse_requests_app evs evs' :
  converse_requests (evs ++ evs') = converse_requests evs ++ converse_requests evs'.
Proof. apply omap_app. Qed.

Lemma get_requests_app evs evs' :
  get_requests (evs ++ evs') = get_requests evs ++ get_requests evs'.
Proof. apply omap_app. Qed.

Lemma dispatch_events_quiet t2s evs :
  Forall (dispatch_event t2s) evs ->
  converse_results evs = [] /\ converse_requests evs = [].
Proof.
  induction 1 as [|e evs He _ [IH1 IH2]]; [done|].
  destruct e; simpl in He; try done.
Qed.

Lemma executed_tools_exec tool_name tool_input evs :
  executed_tools (EvExecuteTool tool_name tool_input :: evs)
  = (tool_name, tool_input) :: executed_tools evs.
Proof. done. Qed.

Lemma executed_tools_converse model_id messages toolConfig r evs :
  executed_tools (EvConverse model_id messages toolConfig r :: evs) = executed_tools evs.
Proof. done. Qed.

Lemma converse_requests_cons model_id messages toolConfig r evs :
  converse_requests (EvConverse model_id messages toolConfig r :: evs)
  = (model_id, messages, toolConfig) :: converse_requests evs.
Proof. done. Qed.

Lemma posted_not_executed t2s tool_name tool_input :
  executed_tools (posted t2s tool_name tool_input) = [].
Proof. unfold posted. repeat case_match; done. Qed.

Lemma tool_outputs_events tus s :
  exists evs,
    trace (tool_outputs tus s).2 = trace s ++ evs
    /\ Forall (dispatch_event (tool_to_server (client s))) evs
    /\ executed_tools evs = map (fun tu => (tu_name tu, tu_input tu)) tus.
Proof.
  revert s. induction tus as [|tu rest IH]; intros s; simpl.
  { exists []. by rewrite app_nil_r. }
  pose proof (execute_tool_trace (tu_name tu) (tu_input tu) s) as Htrace.
  pose proof (execute_tool_effects (tu_name tu) (tu_input tu) s) as [Hclient _].
  destruct (execute_tool _ _ _) as [result s1]; simpl in *.
  destruct (IH s1) as (evs & Htrace' & Hall & Hexec).
  destruct (tool_outputs rest s1) as [results s2]; simpl in *.
  eexists. split; [|split].
  - rewrite Htrace', Htrace, <- app_assoc. done.
  - rewrite Hclient in Hall. simpl. constructor; [done|].
    apply Forall_app. split; [apply posted_dispatch_event|done].
  - by rewrite executed_tools_app, executed_tools_exec, posted_not_executed, Hexec.
Qed.

Lemma loop_events_no_get t2s evs :
  Forall (loop_event t2s) evs -> get_requests evs = [].
Proof.
  induction 1 as [|e evs He _ IH]; [done|].
  destruct e; simpl in He; try done; exact IH.
Qed.

(** *** One turn, by the backend result *)

Lemma terminal_response_None r : terminal_response r = None <-> requests_tools r = true.
Proof.
  destruct r as [message|text|stop_reason [[m|]|]]; simpl; try done.
  destruct (stop_reason_is stop_reason "tool_use") eqn:Htool.
  - apply stop_reason_is_eq in Htool as ->. simpl.
    rewrite bool_decide_eq_true. by destruct (missing_key m).
  - destruct (stop_reason_is stop_reason "end_turn");
      [|destruct (stop_reason_is stop_reason "max_tokens")]; done.
Qed.

(** A turn either goes on after dispatching the tool uses of the
    message, or returns; it returns having done nothing but the backend
    call, unless a tool-use block lacks a key: then the tool uses
    before that block were logged and dispatched. *)
Lemma run_turn_cases model_id tools l s :
  let r := (converse (world s) model_id (l_messages l) (toolConfig_of tools)).1 in
  let w := (converse (world s) model_id (l_messages l) (toolConfig_of tools)).2 in
  let s1 := emit (EvConverse model_id (l_messages l) (toolConfig_of tools) r)
              (with_world w s) in
  (exists stop_reason m,
     r = ConverseResponse stop_reason (Some (Some m))
     /\ stop_reason_is stop_reason "tool_use" = true
     /\ missing_key m = None
     /\ run_turn model_id tools l s
        = (None,
           {| l_messages :=
                l_messages l ++
                [m; {| role := "user";
                       content :=
                         Some (zip_with tool_result_block (map tu_toolUseId (tool_uses m))
                                 (tool_outputs (tool_uses m) s1).1) |}];
              l_tool_calls_log := l_tool_calls_log l ++ map log_entry (tool_uses m);
              l_turns := l_turns l + 1 |},
           (tool_outputs (tool_uses m) s1).2))
  \/ (exists o text,
        terminal_response r = Some (o, text)
        /\ (o <> Aborted -> dispatched_uses r = [])
        /\ run_turn model_id tools l s
           = (Some (o, {| response := text; turns := l_turns l + 1;
                          tool_calls :=
                            l_tool_calls_log l ++ map log_entry (dispatched_uses r) |}),
              {| l_messages := l_messages l ++ appended_message r;
                 l_tool_calls_log :=
                   l_tool_calls_log l ++ map log_entry (dispatched_uses r);
                 l_turns := l_turns l + 1 |},
              (tool_outputs (dispatched_uses r) s1).2)).
Proof.
  destruct (converse (world s) model_id (l_messages l) (toolConfig_of tools))
    as [r w] eqn:Hconv. simpl.
  destruct (fault_message r) as [error_message|] eqn:Hfault.
  { right. exists Aborted, error_message. split.
    - destruct r as [?|?|? [[?|]|]]; simpl in *; by simplify_eq.
    - split; [done|].
      rewrite (run_turn_fault _ _ _ _ _ _ _ Hconv Hfault).
      destruct r as [?|?|? [[?|]|]]; simpl in *; try done; by rewrite !app_nil_r. }
  destruct r as [?|?|stop_reason [[m|]|]]; try done.
  destruct (stop_reason_is stop_reason "tool_use") eqn:Htool.
  { rewrite (run_turn_tool_use_any _ _ _ _ _ _ _ Hconv Htool). simpl.
    pose proof Htool as Hstop. apply stop_reason_is_eq in Hstop as ->.
    assert (Hend : stop_reason_is (Some "tool_use") "end_turn" = false)
      by reflexivity.
    destruct (missing_key m) as [key|] eqn:Hkey.
    - right. exists Aborted, ("Agent error: '" +:+ key +:+ "'").
      simpl. rewrite ?Hend, ?Htool. done.
    - left. exists (Some "tool_use"), m. done. }
  right. unfold run_turn. fold (toolConfig_of tools). rewrite Hconv. simpl.
  rewrite Htool.
  destruct (stop_reason_is stop_reason "end_turn");
    [|destruct (stop_reason_is stop_reason "max_tokens")];
    eexists _, _; (split; [done|]); (split; [done|]); simpl;
    by rewrite ?extract_text_spec, !app_nil_r.
Qed.

(** The loop, one pass at a time. *)
Lemma run_loop_unroll fuel model_id tools max_turns l s res :
  run_loop fuel model_id tools max_turns l s = Some res ->
  (max_turns <= l_turns l
   /\ res = (Exhausted,
             {| response := "Max turns reached"; turns := l_turns l;
                tool_calls := l_tool_calls_log l |}, l, s))
  \/ (l_turns l < max_turns
      /\ exists fuel' ret l1 s1,
           fuel = S fuel'
           /\ run_turn model_id tools l s = (ret, l1, s1)
           /\ match ret with
              | Some (o, r) => res = (o, r, l1, s1)
              | None => run_loop fuel' model_id tools max_turns l1 s1 = Some res
              end).
Proof.
  destruct fuel as [|fuel]; simpl;
    destruct (l_turns l <? max_turns) eqn:Hlt; try done.
  - intros [= <-]. left. split; [lia|done].
  - intros Hloop. right. split; [lia|].
    destruct (run_turn model_id tools l s) as [[ret l1] s1].
    exists fuel, ret, l1, s1. split; [done|]. split; [done|].
    destruct ret as [[o r]|]; by simplify_eq.
  - intros [= <-]. left. split; [lia|done].
Qed.

(** *** The events of a fetch *)

Lemma fetch_all_tools_trace s :
  trace (fetch_all_tools s).2 = trace s ++ fetch_events s.
Proof.
  unfold fetch_events.
  destruct (tools_cache (client s)) as [cached|] eqn:Hcache.
  - rewrite (fetch_all_tools_cached _ _ Hcache). by rewrite app_nil_r.
  - by rewrite (fetch_all_tools_uncached _ Hcache).
Qed.

Lemma fetch_events_quiet s :
  converse_results (fetch_events s) = []
  /\ converse_requests (fetch_events s) = []
  /\ executed_tools (fetch_events s) = []
  /\ post_requests (fetch_events s) = [].
Proof.
  unfold fetch_events. destruct (tools_cache (client s)); [done|].
  by do 2 destruct (fetch_error _ _).
Qed.

Lemma fetch_events_gets s :
  get_requests (fetch_events s)
  = match tools_cache (client s) with
    | Some _ => []
    | None => [MCP_FILESYSTEM_URL +:+ "/tools"; MCP_CALCULATOR_URL +:+ "/tools"]
    end.
Proof.
  unfold fetch_events. destruct (tools_cache (client s)); [done|].
  by do 2 destruct (fetch_error _ _).
Qed.

(** *** The whole loop *)

(** What a loop that returns has done since it began: its events, its
    log, the requests it sent to the backend and how it ended. *)
Lemma run_loop_story fuel model_id tools max_turns l s o r l' s' :
  run_loop fuel model_id tools max_turns l s = Some (o, r, l', s') ->
  exists evs,
    trace s' = trace s ++ evs
    /\ Forall (loop_event (tool_to_server (client s))) evs
    /\ map call_of (tool_calls r) = map call_of (l_tool_calls_log l) ++ executed_tools evs
    /\ (forall i mid msgs cfg,
          converse_requests evs !! i = Some (mid, msgs, cfg) ->
          mid = model_id /\ cfg = toolConfig_of tools
          /\ exists tail, msgs = l_messages l ++ tail /\ length tail = (2 * i)%nat)
    /\ (o = Exhausted /\ response r = "Max turns reached"
         /\ Forall (fun x => requests_tools x = true) (converse_results evs)
        \/ exists rs last,
             converse_results evs = rs ++ [last]
             /\ Forall (fun x => requests_tools x = true) rs
             /\ terminal_response last = Some (o, response r))
    /\ turns r = l_turns l + Z.of_nat (length (converse_results evs)).
Proof.
  revert l s. induction fuel as [|fuel IH]; intros l s Hloop;
    apply run_loop_unroll in Hloop
      as [[Hge Hres]|(Hlt & fuel' & ret & l1 & s1 & Hfuel & Hturn & Hret)];
    try discriminate.
  1,2: simplify_eq; exists []; simpl; rewrite !app_nil_r;
       (split; [done|]); (split; [constructor|]); (split; [done|]);
       (split; [done|]); (split; [|lia]); left; repeat split; constructor.
  injection Hfuel as <-.
  pose proof (run_turn_cases model_id tools l s) as Hcases. simpl in Hcases.
  destruct (converse (world s) model_id (l_messages l) (toolConfig_of tools))
    as [r0 w] eqn:Hconv. simpl in Hcases.
  destruct Hcases
    as [(stop_reason & m & Hr0 & Hstop & Hkey & Hturn')|(o1 & text & Hterm & _ & Hturn')];
    rewrite Hturn in Hturn'; injection Hturn' as -> -> ->.
  - (* the turn dispatched tools and the loop went on *)
    match type of Hret with context [tool_outputs ?tus ?s0] =>
      destruct (tool_outputs_events tus s0) as (evs1 & Htrace1 & Hall1 & Hexec1);
      pose proof (tool_outputs_effects tus s0) as [Hclient1 _]
    end.
    apply IH in Hret as (evs2 & Htrace2 & Hall2 & Hlog & Hreq & Hend & Hturns).
    simpl in *. rewrite Hclient1 in Hall2. simpl in Hall2.
    exists (EvConverse model_id (l_messages l) (toolConfig_of tools) r0 :: evs1 ++ evs2).
    destruct (dispatch_events_quiet _ _ Hall1) as [Hquiet1 Hquiet1'].
    split; [by rewrite Htrace2, Htrace1; simpl; rewrite <- !app_assoc|].
    split.
    { constructor; [done|]. apply Forall_app. split; [|done].
      eapply Forall_impl; [exact Hall1|]. apply dispatch_event_loop_event. }
    split.
    { rewrite Hlog, map_app, <- app_assoc. f_equal.
      rewrite executed_tools_converse, executed_tools_app, Hexec1. f_equal.
      by rewrite map_map. }
    split.
    { intros i mid msgs cfg.
      rewrite converse_requests_cons, converse_requests_app, Hquiet1'. simpl.
      destruct i as [|i]; simpl.
      - intros [= <- <- <-]. repeat split; try done. exists []. by rewrite app_nil_r.
      - intros Hi. destruct (Hreq _ _ _ _ Hi) as (-> & -> & tail & -> & Hlen).
        repeat split; try done. eexists (_ :: _ :: tail).
        split; [by rewrite <- app_assoc|]. simpl. lia. }
    rewrite converse_results_cons, converse_results_app, Hquiet1. simpl.
    split; [|rewrite Hturns; simpl; lia].
    assert (Hgo : requests_tools r0 = true).
    { rewrite Hr0. simpl. rewrite Hstop. by apply bool_decide_eq_true. }
    destruct Hend as [(-> & ? & ?)|(rs & last & -> & ? & ?)].
    + left. repeat split; [done|]. by constructor.
    + right. exists (r0 :: rs), last. split; [done|]. split; [by constructor|done].
  - (* the turn returned *)
    clear IH. injection Hret as -> -> -> ->.
    match goal with |- context [tool_outputs ?tus ?s0] =>
      destruct (tool_outputs_events tus s0) as (evs1 & Htrace1 & Hall1 & Hexec1)
    end.
    simpl in *.
    exists (EvConverse model_id (l_messages l) (toolConfig_of tools) r0 :: evs1).
    destruct (dispatch_events_quiet _ _ Hall1) as [Hquiet1 Hquiet1'].
    split; [by rewrite Htrace1; simpl; rewrite <- !app_assoc|].
    split.
    { constructor; [done|].
      eapply Forall_impl; [exact Hall1|]. apply dispatch_event_loop_event. }
    split.
    { rewrite map_app. f_equal.
      rewrite executed_tools_converse, Hexec1. by rewrite map_map. }
    split.
    { intros i mid msgs cfg. rewrite converse_requests_cons, Hquiet1'.
      destruct i as [|i]; simpl; [|done].
      intros [= <- <- <-]. repeat split; try done. exists []. by rewrite app_nil_r. }
    rewrite converse_results_cons, Hquiet1. simpl.
    split; [|lia].
    right. exists [], r0. repeat split; [constructor|done].
Qed.

(** [run] returns for every [max_turns]. *)
Lemma run_returns model_id user_message max_turns s :
  exists o r l' s', run model_id user_message max_turns s = Some (o, r, l', s').
Proof.
  unfold run. destruct (fetch_all_tools s) as [tools s0].
  destruct (decide (0 <= max_turns)) as [Hle|Hneg].
  - match goal with |- context [run_loop ?f ?m ?t ?mx ?l ?s] =>
      destruct (run_loop_spec f m t mx l s) as (o & r & l' & s' & _ & Hloop & _);
        [simpl; lia|simpl; lia|]
    end.
    by exists o, r, l', s'.
  - replace (Z.to_nat max_turns) with 0%nat by lia. simpl.
    replace (0 <? max_turns) with false by lia. by eexists _, _, _, _.
Qed.

(** A run is a fetch followed by the loop on the seeded history. *)
Lemma run_story model_id user_message max_turns s o r l' s' :
  run model_id user_message max_turns s = Some (o, r, l', s') ->
  exists evs,
    events_since s s' = fetch_events s ++ evs
    /\ run_loop (Z.to_nat max_turns) model_id (fetch_all_tools s).1 max_turns
         {| l_messages :=
              [{| role := "user";
                  content := Some [{| cb_text := Some user_message; cb_toolUse := None;
                                      cb_toolResult := None |}] |}];
            l_tool_calls_log := []; l_turns := 0 |} (fetch_all_tools s).2
       = Some (o, r, l', s')
    /\ trace s' = trace (fetch_all_tools s).2 ++ evs.
Proof.
  unfold run. pose proof (fetch_all_tools_trace s) as Hftrace.
  destruct (fetch_all_tools s) as [tools s0]. simpl in *.
  intros Hloop. destruct (run_loop_story _ _ _ _ _ _ _ _ _ _ Hloop) as (evs & Htrace & _).
  exists evs. split; [|done].
  apply events_since_app. by rewrite Htrace, Hftrace, <- app_assoc.
Qed.

(** *** Properties of the registry *)

(** X1.  On an empty cache [fetch_all_tools] sends exactly two GETs,
    to the filesystem endpoint's /tools and then to the calculator
    endpoint's /tools, whatever either of them answers: a failure of the
    first does not keep the second from being asked. *)
Theorem fetch_queries_both_endpoints s :
  tools_cache (client s) = None ->
  get_requests (events_since s (fetch_all_tools s).2)
  = [MCP_FILESYSTEM_URL +:+ "/tools"; MCP_CALCULATOR_URL +:+ "/tools"].
Proof.
  intros Hcache.
  rewrite (events_since_app _ _ _ (fetch_all_tools_trace s)), fetch_events_gets.
  by rewrite Hcache.
Qed.

(** X2.  An endpoint that answers with a status other than 200 is
    skipped without a printed line: when both do, the catalog is empty,
    the lookup map is as before and the two GETs are all that happened. *)
Theorem non_success_status_is_silent s status1 json1 status2 json2 :
  tools_cache (client s) = None ->
  (first_get s).1 = GetResponse status1 json1 ->
  status1 <> 200 ->
  (second_get s).1 = GetResponse status2 json2 ->
  status2 <> 200 ->
  (fetch_all_tools s).1 = []
  /\ tool_to_server (client (fetch_all_tools s).2) = tool_to_server (client s)
  /\ events_since s (fetch_all_tools s).2
     = [EvGet (MCP_FILESYSTEM_URL +:+ "/tools"); EvGet (MCP_CALCULATOR_URL +:+ "/tools")].
Proof.
  intros Hcache Ha Hstatus1 Hb Hstatus2.
  assert (Hskip : forall server_url status_code json,
            status_code <> 200 ->
            listed_tools (GetResponse status_code json) = []
            /\ fetch_error server_url (GetResponse status_code json) = None).
  { intros server_url status_code json Hne. unfold fetch_error. simpl.
    apply Z.eqb_neq in Hne. rewrite Hne. by destruct json as [?|[]]. }
  destruct (Hskip MCP_FILESYSTEM_URL _ json1 Hstatus1) as [Hla Hea].
  destruct (Hskip MCP_CALCULATOR_URL _ json2 Hstatus2) as [Hlb Heb].
  rewrite (events_since_app _ _ _ (fetch_all_tools_trace s)).
  unfold fetch_events. rewrite (fetch_all_tools_uncached _ Hcache), Hcache. simpl.
  by rewrite Ha, Hb, Hla, Hlb, Hea, Heb.
Qed.

Lemma registered_iff_contributed tools n :
  n ∈ registered_names tools <-> JStr n ∈ map ts_name (contributed_tools tools).
Proof.
  induction tools as [|tool rest IH]; simpl; [by rewrite !elem_of_nil|].
  destruct tool as [| | | |items|fields]; simpl; try by rewrite !elem_of_nil.
  destruct (dict_get fields "name") as [name|]; simpl; [|by rewrite !elem_of_nil].
  destruct name as [| | |n'| |]; simpl;
    rewrite ?elem_of_cons, ?elem_of_nil, ?IH; intuition congruence.
Qed.

(** X3.  After a fetch that started with an empty cache and an empty
    lookup map, the catalog and the lookup map agree on the names that
    are strings: a name can be dispatched to an endpoint exactly when
    the catalog offers a tool of that name to the backend. *)
Theorem catalog_and_routes_agree s tool_name :
  tools_cache (client s) = None ->
  tool_to_server (client s) = empty ->
  is_Some (tool_to_server (client (fetch_all_tools s).2) !! tool_name)
  <-> JStr tool_name ∈ map ts_name (fetch_all_tools s).1.
Proof.
  intros Hcache Hempty. rewrite (fetch_all_tools_uncached _ Hcache). simpl.
  rewrite !register_lookup, Hempty, lookup_empty, map_app, elem_of_app.
  rewrite <- !registered_iff_contributed.
  repeat case_bool_decide; split; try (intros [? ?]; done); try (by eauto);
    intros [?|?]; done.
Qed.

Lemma register_configured server_url names t2s :
  server_url = MCP_FILESYSTEM_URL \/ server_url = MCP_CALCULATOR_URL ->
  configured_routes t2s -> configured_routes (register server_url names t2s).
Proof.
  intros Hurl Hroutes tool_name url. rewrite register_lookup.
  case_bool_decide; [by intros [= <-]|apply Hroutes].
Qed.

Lemma fetch_all_tools_configured s :
  configured_routes (tool_to_server (client s)) ->
  configured_routes (tool_to_server (client (fetch_all_tools s).2)).
Proof.
  intros Hroutes. destruct (tools_cache (client s)) as [cached|] eqn:Hcache.
  - by rewrite (fetch_all_tools_cached _ _ Hcache).
  - rewrite (fetch_all_tools_uncached _ Hcache). simpl.
    apply register_configured; [by right|]. apply register_configured; [by left|done].
Qed.

Lemma fetch_events_configured s : Forall configured_contact (fetch_events s).
Proof.
  unfold fetch_events. destruct (tools_cache (client s)); [constructor|].
  do 2 destruct (fetch_error _ _); simpl;
    repeat (apply Forall_cons; split); try apply Forall_nil; simpl; auto.
Qed.

Lemma loop_events_configured t2s evs :
  configured_routes t2s -> Forall (loop_event t2s) evs -> Forall configured_contact evs.
Proof.
  intros Hroutes Hall. eapply Forall_impl; [exact Hall|]. intros e He.
  destruct e as [| | |url body|]; simpl in *; try done.
  destruct He as (tool_name & server_url & Hlookup & ->).
  destruct (Hroutes _ _ Hlookup) as [->| ->]; auto.
Qed.

Lemma do_call_configured c s :
  configured_routes (tool_to_server (client s)) ->
  configured_routes (tool_to_server (client (do_call c s)))
  /\ exists evs, trace (do_call c s) = trace s ++ evs /\ Forall configured_contact evs.
Proof.
  intros Hroutes.
  destruct c as [|tool_name tool_input|model_id user_message max_turns|w]; simpl.
  - split; [by apply fetch_all_tools_configured|].
    exists (fetch_events s). split; [apply fetch_all_tools_trace|apply fetch_events_configured].
  - pose proof (execute_tool_effects tool_name tool_input s) as [-> _]. split; [done|].
    eexists. split; [apply execute_tool_trace|].
    apply (loop_events_configured _ _ Hroutes). constructor; [done|].
    eapply Forall_impl; [apply posted_dispatch_event|apply dispatch_event_loop_event].
  - destruct (run_returns model_id user_message max_turns s) as (o & r & l' & s' & Hrun).
    rewrite Hrun.
    destruct (run_story _ _ _ _ _ _ _ _ Hrun) as (evs & _ & Hloop & Htrace).
    pose proof (run_loop_client _ _ _ _ _ _ _ _ _ _ Hloop) as Hclient.
    destruct (run_loop_story _ _ _ _ _ _ _ _ _ _ Hloop) as (evs' & Htrace' & Hall & _).
    pose proof (fetch_all_tools_configured s Hroutes) as Hroutes'.
    rewrite Hclient. split; [done|].
    exists (fetch_events s ++ evs').
    split; [by rewrite Htrace', fetch_all_tools_trace, <- app_assoc|].
    apply Forall_app. split; [apply fetch_events_configured|].
    by apply (loop_events_configured _ _ Hroutes').
  - split; [done|]. exists []. by rewrite app_nil_r.
Qed.

(** X4.  Whatever a process does with the client (fetches, dispatches,
    runs, in any number and order) and whatever the tool servers and
    the backend answer, requests go to the two configured endpoints
    only: GETs to their /tools, POSTs to their /execute.  No answer of
    a tool server can make the service contact another address. *)
Theorem only_configured_endpoints_contacted s calls :
  configured_routes (tool_to_server (client s)) ->
  Forall configured_contact (events_since s (do_calls calls s))
  /\ configured_routes (tool_to_server (client (do_calls calls s))).
Proof.
  intros Hroutes.
  assert (Hgen : configured_routes (tool_to_server (client (do_calls calls s)))
                 /\ exists evs, trace (do_calls calls s) = trace s ++ evs
                                /\ Forall configured_contact evs).
  { revert s Hroutes. induction calls as [|c calls IH]; intros s Hroutes.
    - split; [done|]. exists []. by rewrite app_nil_r.
    - destruct (do_call_configured c s Hroutes) as (Hroutes1 & evs1 & Htrace1 & Hall1).
      destruct (IH _ Hroutes1) as (Hroutes2 & evs2 & Htrace2 & Hall2).
      unfold do_calls in *. simpl. split; [done|].
      exists (evs1 ++ evs2). split; [by rewrite Htrace2, Htrace1, <- app_assoc|].
      by apply Forall_app. }
  destruct Hgen as (Hroutes' & evs & Htrace & Hall).
  by rewrite (events_since_app _ _ _ Htrace).
Qed.

Lemma well_formed_tools server_url tools :
  Forall (fun tool_def => is_Some (tool_name_of tool_def)) tools ->
  contributed_tools tools = map translate tools
  /\ registered_names tools = omap tool_name_of tools
  /\ (add_tools server_url tools [] empty).2 = None.
Proof.
  induction 1 as [|tool_def rest [n Hname] _ (IH1 & IH2 & IH3)]; [done|].
  destruct tool_def as [| | | | |fields]; try done. simpl in *.
  destruct (dict_get fields "name") as [[| | |n'| |]|]; try done. simpl.
  rewrite IH1, IH2. repeat split. by rewrite add_tools_exc.
Qed.

(** X5.  When both endpoints answer 200 with an object whose "tools"
    member is a list of objects that each have a string name, the
    catalog is the translation of the two lists, entry by entry and in
    order (the name copied, a missing description replaced by the empty
    string and a missing input schema by the empty object schema), every
    listed name is in the lookup map, and nothing is printed. *)
Theorem well_formed_answers_translate s status1 fields1 tools1 status2 fields2 tools2 :
  tools_cache (client s) = None ->
  (first_get s).1 = GetResponse status1 (JsonValue (JObj fields1)) ->
  status1 = 200 ->
  dict_get fields1 "tools" = Some (JArr tools1) ->
  Forall (fun tool_def => is_Some (tool_name_of tool_def)) tools1 ->
  (second_get s).1 = GetResponse status2 (JsonValue (JObj fields2)) ->
  status2 = 200 ->
  dict_get fields2 "tools" = Some (JArr tools2) ->
  Forall (fun tool_def => is_Some (tool_name_of tool_def)) tools2 ->
  (fetch_all_tools s).1 = map translate (tools1 ++ tools2)
  /\ (forall tool_name,
        tool_name ∈ omap tool_name_of (tools1 ++ tools2) ->
        is_Some (tool_to_server (client (fetch_all_tools s).2) !! tool_name))
  /\ events_since s (fetch_all_tools s).2
     = [EvGet (MCP_FILESYSTEM_URL +:+ "/tools"); EvGet (MCP_CALCULATOR_URL +:+ "/tools")].
Proof.
  intros Hcache Ha -> Htools1 Hwf1 Hb -> Htools2 Hwf2.
  destruct (well_formed_tools MCP_FILESYSTEM_URL _ Hwf1) as (Hc1 & Hr1 & He1).
  destruct (well_formed_tools MCP_CALCULATOR_URL _ Hwf2) as (Hc2 & Hr2 & He2).
  assert (Hla : listed_tools (first_get s).1 = tools1).
  { rewrite Ha. simpl. by rewrite Htools1. }
  assert (Hlb : listed_tools (second_get s).1 = tools2).
  { rewrite Hb. simpl. by rewrite Htools2. }
  assert (Hea : fetch_error MCP_FILESYSTEM_URL (first_get s).1 = None).
  { rewrite Ha. unfold fetch_error. simpl. by rewrite Htools1. }
  assert (Heb : fetch_error MCP_CALCULATOR_URL (second_get s).1 = None).
  { rewrite Hb. unfold fetch_error. simpl. by rewrite Htools2. }
  rewrite (events_since_app _ _ _ (fetch_all_tools_trace s)).
  unfold fetch_events. rewrite (fetch_all_tools_uncached _ Hcache), Hcache. simpl.
  rewrite Hla, Hlb, Hea, Heb, Hc1, Hc2, Hr1, Hr2, map_app. simpl.
  split; [done|]. split; [|done].
  intros tool_name. rewrite omap_app, elem_of_app, !register_lookup.
  intros [Hin|Hin]; repeat case_bool_decide; by eauto.
Qed.

(** *** Properties of a dispatch *)

(** X6.  A dispatch sends one POST, to [<endpoint>/execute] with the
    body [{"tool": name, "arguments": input}], when the name is
    registered with an endpoint that is not the empty string; otherwise
    (name not registered, or registered with the empty string) it sends
    nothing.  It never changes the client. *)
Theorem dispatch_requests tool_name tool_input s :
  events_since s (execute_tool tool_name tool_input s).2
  = EvExecuteTool tool_name tool_input
    :: posted (tool_to_server (client s)) tool_name tool_input
  /\ client (execute_tool tool_name tool_input s).2 = client s.
Proof.
  split; [|apply execute_tool_effects].
  apply events_since_app, execute_tool_trace.
Qed.

(** X7.  What a dispatch returns is either a payload of the registry
    itself, an object whose first member is "error", or data of the
    tool server, and the latter only when the name is registered, the
    POST was answered with status 200 and the body is a JSON object:
    then it is the "result" member of that object, or the whole object
    when it has none. *)
Theorem dispatch_result_is_error_or_server_data tool_name tool_input s :
  is_error_payload (execute_tool_payload tool_name tool_input s).1
  \/ exists server_url text fields,
       tool_to_server (client s) !! tool_name = Some server_url
       /\ server_url <> ""
       /\ (http_post (world s) (server_url +:+ "/execute")
             (JObj [("tool", JStr tool_name); ("arguments", tool_input)])).1
          = PostResponse 200 text (JsonValue (JObj fields))
       /\ (execute_tool_payload tool_name tool_input s).1
          = default (JObj fields) (dict_get fields "result").
Proof.
  unfold execute_tool_payload. simpl.
  destruct (tool_to_server (client s) !! tool_name) as [[|c url]|] eqn:Hlookup;
    try (left; eexists _, _; done).
  destruct (http_post _ _ _) as [r w] eqn:Hpost. simpl.
  destruct r as [text|status_code text [text'|v]]; simpl;
    try (left; eexists _, _; done).
  - destruct (status_code =? 200); left; eexists _, _; done.
  - destruct (status_code =? 200) eqn:Hstatus; [|left; eexists _, _; done].
    apply Z.eqb_eq in Hstatus as ->.
    destruct v; try (left; eexists _, _; done).
    right. eexists _, text, _. split; [done|]. split; [done|]. by rewrite Hpost.
Qed.

(** *** Properties of a run *)

(** X8.  A turn in which [run] returns leaves the client as it is; its
    response carries the log as the turn leaves it, and the history has
    grown by the assistant message, if there is one.  Unless the turn
    ended on a tool-use block that lacks a key, it has done one thing
    only, the backend call: no tool is dispatched in it, even when the
    assistant message holds tool-use blocks (an end-of-turn or
    truncated message may), and the log is the one the turn began
    with.  In a turn that ended on such a block the tool uses before it
    were logged and dispatched, in order. *)
Theorem returning_turn_only_calls_backend model_id tools l s o resp l' s' :
  run_turn model_id tools l s = (Some (o, resp), l', s') ->
  client s' = client s
  /\ tool_calls resp = l_tool_calls_log l'
  /\ l_messages l'
     = l_messages l
       ++ appended_message
            (converse (world s) model_id (l_messages l) (toolConfig_of tools)).1
  /\ l_tool_calls_log l'
     = l_tool_calls_log l
       ++ map log_entry
            (dispatched_uses
               (converse (world s) model_id (l_messages l) (toolConfig_of tools)).1)
  /\ executed_tools (events_since s s')
     = map (fun tu => (tu_name tu, tu_input tu))
         (dispatched_uses
            (converse (world s) model_id (l_messages l) (toolConfig_of tools)).1)
  /\ (o <> Aborted
      \/ is_Some (fault_message
                    (converse (world s) model_id (l_messages l) (toolConfig_of tools)).1) ->
      events_since s s'
      = [EvConverse model_id (l_messages l) (toolConfig_of tools)
           (converse (world s) model_id (l_messages l) (toolConfig_of tools)).1]
      /\ l_tool_calls_log l' = l_tool_calls_log l).
Proof.
  intros Hturn.
  destruct (run_turn_cases model_id tools l s)
    as [(stop_reason & m & _ & _ & _ & Hturn')|(o1 & text & Hterm & Hnone & Hturn')];
    rewrite Hturn in Hturn'; [done|].
  injection Hturn' as -> -> -> ->.
  match goal with |- context [tool_outputs ?tus ?s0] =>
    pose proof (tool_outputs_effects tus s0)
      as (Hclient & _ & evs & Htrace & _ & Hexec)
  end.
  simpl in *.
  assert (Hsince :
    events_since s
      (tool_outputs
         (dispatched_uses
            (converse (world s) model_id (l_messages l) (toolConfig_of tools)).1)
         (emit (EvConverse model_id (l_messages l) (toolConfig_of tools)
                  (converse (world s) model_id (l_messages l) (toolConfig_of tools)).1)
            (with_world
               (converse (world s) model_id (l_messages l) (toolConfig_of tools)).2 s))).2
    = EvConverse model_id (l_messages l) (toolConfig_of tools)
        (converse (world s) model_id (l_messages l) (toolConfig_of tools)).1 :: evs).
  { apply events_since_app. rewrite Htrace. simpl. by rewrite <- app_assoc. }
  split; [done|]. split; [done|]. split; [done|]. split; [done|].
  split; [by rewrite Hsince, executed_tools_converse|].
  intros Hquiet.
  assert (Hdispatched :
    dispatched_uses
      (converse (world s) model_id (l_messages l) (toolConfig_of tools)).1 = []).
  { destruct Hquiet as [Hne|[error_message Hfault]]; [by apply Hnone|].
    by destruct (converse _ _ _ _).1 as [?|?|? [[?|]|]]. }
  rewrite Hdispatched. simpl.
  split; [by apply events_since_app|by rewrite app_nil_r].
Qed.

(** X9.  The log a run returns is the record of its dispatches: its
    entries name, in order, exactly the tools and arguments that
    [execute_tool] was called with during the run.  Nothing is logged
    that was not dispatched and nothing dispatched is missing. *)
Theorem log_records_dispatches model_id user_message max_turns s o r l' s' :
  run model_id user_message max_turns s = Some (o, r, l', s') ->
  map call_of (tool_calls r) = executed_tools (events_since s s').
Proof.
  intros Hrun.
  destruct (run_story _ _ _ _ _ _ _ _ Hrun) as (evs & Hsince & Hloop & Htrace).
  destruct (run_loop_story _ _ _ _ _ _ _ _ _ _ Hloop) as (evs' & Htrace' & _ & Hlog & _).
  rewrite Htrace in Htrace'. apply app_inv_head in Htrace' as <-.
  destruct (fetch_events_quiet s) as (_ & _ & Hquiet & _).
  by rewrite Hsince, executed_tools_app, Hquiet, Hlog.
Qed.

(** X10.  Every backend call of a run carries the model id of the
    agent and the catalog that was fetched before the loop (no tool
    configuration when that catalog is empty), also when the tool
    servers change during the run; the history it carries begins with
    the user's message and has two more messages than the call before. *)
Theorem backend_requests_shape model_id user_message max_turns s o r l' s' i mid msgs cfg :
  run model_id user_message max_turns s = Some (o, r, l', s') ->
  converse_requests (events_since s s') !! i = Some (mid, msgs, cfg) ->
  mid = model_id
  /\ cfg = toolConfig_of (fetch_all_tools s).1
  /\ exists tail,
       msgs = {| role := "user";
                 content := Some [{| cb_text := Some user_message; cb_toolUse := None;
                                     cb_toolResult := None |}] |} :: tail
       /\ length tail = (2 * i)%nat.
Proof.
  intros Hrun.
  destruct (run_story _ _ _ _ _ _ _ _ Hrun) as (evs & Hsince & Hloop & Htrace).
  destruct (run_loop_story _ _ _ _ _ _ _ _ _ _ Hloop) as (evs' & Htrace' & _ & _ & Hreq & _).
  rewrite Htrace in Htrace'. apply app_inv_head in Htrace' as <-.
  destruct (fetch_events_quiet s) as (_ & Hquiet & _).
  rewrite Hsince, converse_requests_app, Hquiet. simpl.
  intros Hi. apply Hreq in Hi as (-> & -> & tail & -> & Hlen). eauto.
Qed.

(** X11.  A run fetches the catalog at most once and only if the cache
    is empty: its GETs are the two of the fetch when the cache is empty
    and none at all when it is filled; the loop itself never sends one. *)
Theorem run_fetches_catalog_once model_id user_message max_turns s o r l' s' :
  run model_id user_message max_turns s = Some (o, r, l', s') ->
  get_requests (events_since s s')
  = match tools_cache (client s) with
    | Some _ => []
    | None => [MCP_FILESYSTEM_URL +:+ "/tools"; MCP_CALCULATOR_URL +:+ "/tools"]
    end.
Proof.
  intros Hrun.
  destruct (run_story _ _ _ _ _ _ _ _ Hrun) as (evs & Hsince & Hloop & Htrace).
  destruct (run_loop_story _ _ _ _ _ _ _ _ _ _ Hloop) as (evs' & Htrace' & Hall & _).
  rewrite Htrace in Htrace'. apply app_inv_head in Htrace' as <-.
  rewrite Hsince, get_requests_app, fetch_events_gets, (loop_events_no_get _ _ Hall).
  by rewrite app_nil_r.
Qed.

(** X12.  What a run returns is decided by its last backend result.
    Either every backend result asked for tools and the run ended on
    the turn limit with "Max turns reached", or all results but the last
    asked for tools and the last one gives the outcome and the response
    text: the error message of a fault (of the backend call, or the
    missing key of a tool-use reply with an incomplete block), the
    concatenated texts at end of turn, the fixed sentence at the length
    limit (the partial text of the message is dropped), or the raw stop
    reason ("None" when the response has none) for any other. *)
Theorem run_outcome_from_last_result model_id user_message max_turns s o r l' s' :
  run model_id user_message max_turns s = Some (o, r, l', s') ->
  o = Exhausted /\ response r = "Max turns reached"
  /\ Forall (fun x => requests_tools x = true) (converse_results (events_since s s'))
  \/ exists rs last,
       converse_results (events_since s s') = rs ++ [last]
       /\ Forall (fun x => requests_tools x = true) rs
       /\ terminal_response last = Some (o, response r).
Proof.
  intros Hrun.
  destruct (run_story _ _ _ _ _ _ _ _ Hrun) as (evs & Hsince & Hloop & Htrace).
  destruct (run_loop_story _ _ _ _ _ _ _ _ _ _ Hloop)
    as (evs' & Htrace' & _ & _ & _ & Hend & _).
  rewrite Htrace in Htrace'. apply app_inv_head in Htrace' as <-.
  destruct (fetch_events_quiet s) as (Hquiet & _).
  by rewrite Hsince, converse_results_app, Hquiet.
Qed.




(** *** Properties of the handlers *)

(** X13.  A request whose [max_turns] is an integer is always answered
    with a response, never with a 500, whatever the tool servers and the
    backend do: their failures end up in the response text.  The turns
    reported are the backend calls made, between 0 and [max_turns]. *)
Theorem run_agent_answers model_id request max_turns s :
  req_max_turns request = Some max_turns ->
  exists r s',
    run_agent model_id request s = Some (HttpOk r, s')
    /\ turns r = Z.of_nat (length (converse_results (events_since s s')))
    /\ 0 <= turns r <= Z.max 0 max_turns.
Proof.
  intros Hmax. unfold run_agent. rewrite Hmax.
  destruct (run_returns model_id (req_message request) max_turns s)
    as (o & r & l' & s' & Hrun).
  rewrite Hrun. exists r, s'. split; [done|].
  destruct (run_story _ _ _ _ _ _ _ _ Hrun) as (evs & Hsince & Hloop & Htrace).
  destruct (run_loop_story _ _ _ _ _ _ _ _ _ _ Hloop)
    as (evs' & Htrace' & _ & _ & _ & _ & Hturns).
  rewrite Htrace in Htrace'. apply app_inv_head in Htrace' as <-.
  destruct (fetch_events_quiet s) as (Hquiet & _).
  rewrite Hsince, converse_results_app, Hquiet. simpl in *.
  split; [lia|]. split; [lia|].
  destruct (decide (0 <= max_turns)) as [Hle|Hneg].
  - match type of Hloop with run_loop ?f ?m ?t ?mx ?l ?s0 = _ =>
      destruct (run_loop_spec f m t mx l s0)
        as (o2 & r2 & l2 & s2 & evs2 & Hloop2 & _ & Hr2 & _ & Hle2 & _);
        [simpl; lia|simpl; lia|]
    end.
    rewrite Hloop in Hloop2. simplify_eq. lia.
  - apply run_loop_unroll in Hloop as [[_ Hres]|[Hlt _]]; simpl in *; [|lia].
    simplify_eq. simpl in *. lia.
Qed.

(** X14.  A request whose [max_turns] is null is answered with status
    500 and the text of the TypeError that the loop test raises.  By
    then the catalog has been fetched and cached, no backend call has
    been made, and a later request with the default budget finds the
    cache filled: it sends no GET. *)
Theorem run_agent_null_budget model_id request s :
  req_max_turns request = None ->
  run_agent model_id request s
  = Some (HTTPException 500
            "'<' not supported between instances of 'int' and 'NoneType'",
          (fetch_all_tools s).2)
  /\ tools_cache (client (fetch_all_tools s).2) = Some (fetch_all_tools s).1
  /\ converse_results (events_since s (fetch_all_tools s).2) = []
  /\ forall message,
       exists r s',
         run_agent model_id (AgentRequest_default message) (fetch_all_tools s).2
         = Some (HttpOk r, s')
         /\ get_requests (events_since (fetch_all_tools s).2 s') = [].
Proof.
  intros Hmax. unfold run_agent at 1. rewrite Hmax.
  destruct (fetch_all_tools s) as [tools s0] eqn:Hfetch.
  pose proof (fetch_all_tools_populates s) as Hcache.
  pose proof (fetch_all_tools_trace s) as Htrace.
  rewrite Hfetch in Hcache, Htrace. simpl in *.
  split; [done|]. split; [done|]. split.
  { rewrite (events_since_app _ _ _ Htrace). apply fetch_events_quiet. }
  intros message. unfold run_agent. simpl.
  destruct (run_returns model_id message 10 s0) as (o & r & l' & s' & Hrun).
  rewrite Hrun. exists r, s'. split; [done|].
  destruct (run_story _ _ _ _ _ _ _ _ Hrun) as (evs & Hsince & Hloop & Htrace1).
  destruct (run_loop_story _ _ _ _ _ _ _ _ _ _ Hloop) as (evs' & Htrace' & Hall & _).
  rewrite Htrace1 in Htrace'. apply app_inv_head in Htrace' as <-.
  rewrite Hsince, get_requests_app, fetch_events_gets, Hcache, (loop_events_no_get _ _ Hall).
  done.
Qed.

(** X15.  [GET /tools] reports as count the number of descriptors it
    lists, and it fills the cache the agent uses: a run after it sends
    no GET and offers the backend, in every call, exactly the tools that
    were listed. *)
Theorem list_tools_warms_cache s listing s1 :
  list_tools s = (HttpOk listing, s1) ->
  tl_count listing = Z.of_nat (length (tl_tools listing))
  /\ forall model_id user_message max_turns o r l' s',
       run model_id user_message max_turns s1 = Some (o, r, l', s') ->
       get_requests (events_since s1 s') = []
       /\ Forall (fun req => req.2 = toolConfig_of (tl_tools listing))
            (converse_requests (events_since s1 s')).
Proof.
  unfold list_tools.
  pose proof (fetch_all_tools_populates s) as Hcache.
  destruct (fetch_all_tools s) as [tools s0]. simpl in Hcache.
  intros [= <- <-]. simpl. split; [done|].
  intros model_id user_message max_turns o r l' s' Hrun.
  destruct (run_story _ _ _ _ _ _ _ _ Hrun) as (evs & Hsince & Hloop & Htrace).
  destruct (run_loop_story _ _ _ _ _ _ _ _ _ _ Hloop)
    as (evs' & Htrace' & Hall & _ & Hreq & _).
  rewrite Htrace in Htrace'. apply app_inv_head in Htrace' as <-.
  destruct (fetch_events_quiet s0) as (_ & Hquiet & _).
  rewrite Hsince, get_requests_app, converse_requests_app, Hquiet, fetch_events_gets, Hcache.
  rewrite (loop_events_no_get _ _ Hall). split; [done|]. simpl.
  apply Forall_lookup. intros i [[mid msgs] cfg] Hi.
  apply Hreq in Hi as (_ & -> & _). simpl.
  by rewrite (fetch_all_tools_cached _ _ Hcache).
Qed.

(** *** Overlapping fetches *)

(** With a filled cache no call sends a GET. *)
Lemma do_call_no_get c s :
  is_Some (tools_cache (client s)) ->
  exists evs, trace (do_call c s) = trace s ++ evs /\ get_requests evs = [].
Proof.
  intros [cached Hcache].
  destruct c as [|tool_name tool_input|model_id user_message max_turns|w]; simpl.
  - rewrite (fetch_all_tools_cached _ _ Hcache). exists []. by rewrite app_nil_r.
  - eexists. split; [apply execute_tool_trace|].
    apply (loop_events_no_get (tool_to_server (client s))). constructor; [done|].
    eapply Forall_impl; [apply posted_dispatch_event|apply dispatch_event_loop_event].
  - destruct (run_returns model_id user_message max_turns s) as (o & r & l' & s' & Hrun).
    rewrite Hrun.
    destruct (run_story _ _ _ _ _ _ _ _ Hrun) as (evs & _ & Hloop & Htrace).
    destruct (run_loop_story _ _ _ _ _ _ _ _ _ _ Hloop) as (evs' & Htrace' & Hall & _).
    rewrite (fetch_all_tools_cached _ _ Hcache) in Htrace'. simpl in Htrace'.
    exists evs'. split; [done|]. by apply (loop_events_no_get _ _ Hall).
  - exists []. by rewrite app_nil_r.
Qed.

Lemma steps_no_get acts p :
  is_Some (tools_cache (client (p_sys p))) ->
  p_fetches p = [] ->
  exists evs,
    trace (p_sys (steps acts p)) = trace (p_sys p) ++ evs /\ get_requests evs = [].
Proof.
  revert p. induction acts as [|a acts IH]; intros p Hcache Hnone.
  { exists []. by rewrite app_nil_r. }
  unfold steps in *. simpl.
  destruct (step_quiet a p Hcache Hnone) as [Hclient Hnone'].
  assert (exists evs,
            trace (p_sys (step a p)) = trace (p_sys p) ++ evs /\ get_requests evs = [])
    as (evs1 & Htrace1 & Hgets1).
  { destruct a as [|k|c]; simpl.
    - unfold begin_fetch. destruct Hcache as [cached ->]. exists []. by rewrite app_nil_r.
    - unfold resume_fetch. rewrite Hnone. exists []. by rewrite app_nil_r.
    - by apply do_call_no_get. }
  destruct (IH (step a p)) as (evs2 & Htrace2 & Hgets2); [by rewrite Hclient|done|].
  exists (evs1 ++ evs2). split; [by rewrite Htrace2, Htrace1, <- app_assoc|].
  by rewrite get_requests_app, Hgets1, Hgets2.
Qed.

(** C9, as the code has it.  A [fetch_all_tools] that runs with no
    other fetch in flight fills the cache with the list it returns,
    the empty list when neither endpoint gives an answer that can be
    read.  From then on (from any state with a filled cache and no
    fetch in flight) nothing the process does modifies the client,
    whatever it is and in whatever order: fetches begun and resumed,
    dispatches, runs, the world changing.  No fetch is left in flight,
    no GET is sent, and a later [fetch_all_tools] returns the cached
    list and issues no request. *)
Theorem tools_cache_frozen s acts :
  steps fetch_alone (quiet s) = quiet (fetch_all_tools s).2
  /\ tools_cache (client (fetch_all_tools s).2) = Some (fetch_all_tools s).1
  /\ (tools_cache (client s) = None ->
      unread (first_get s).1 = true ->
      unread (second_get s).1 = true ->
      (fetch_all_tools s).1 = [])
  /\ client (p_sys (steps acts (quiet (fetch_all_tools s).2)))
     = client (fetch_all_tools s).2
  /\ p_fetches (steps acts (quiet (fetch_all_tools s).2)) = []
  /\ get_requests
       (events_since (fetch_all_tools s).2
          (p_sys (steps acts (quiet (fetch_all_tools s).2)))) = []
  /\ fetch_all_tools (p_sys (steps acts (quiet (fetch_all_tools s).2)))
     = ((fetch_all_tools s).1, p_sys (steps acts (quiet (fetch_all_tools s).2))).
Proof.
  pose proof (fetch_all_tools_populates s) as Hcache.
  destruct (steps_quiet acts (quiet (fetch_all_tools s).2)) as [Hclient Hnone];
    [simpl; by rewrite Hcache|done|].
  destruct (steps_no_get acts (quiet (fetch_all_tools s).2)) as (evs & Htrace & Hgets);
    [simpl; by rewrite Hcache|done|].
  simpl in Hclient, Htrace.
  split; [apply fetch_alone_spec|]. split; [done|]. split.
  { intros Hempty Ha Hb. rewrite (fetch_all_tools_uncached _ Hempty). simpl.
    by rewrite (unread_contributes_nothing _ Ha), (unread_contributes_nothing _ Hb). }
  split; [done|]. split; [done|].
  split; [by rewrite (events_since_app _ _ _ Htrace)|].
  apply fetch_all_tools_cached. by rewrite Hclient.
Qed.

End MoreProperties.

(** ** The further properties on the scripted world *)

Lemma fetch_queries_both_endpoints_witness :
  tools_cache (client (boot half_broken_world)) = None
  /\ get_requests (events_since (boot half_broken_world)
                     (@fetch_all_tools mock_env (boot half_broken_world)).2)
     = ["http://mcp-filesystem:3001/tools"; "http://mcp-calculator:3002/tools"].
Proof.
  split; [reflexivity|].
  apply (@fetch_queries_both_endpoints mock_env (boot half_broken_world)). reflexivity.
Defined.

Lemma non_success_status_is_silent_witness :
  tools_cache (client (boot unavailable)) = None
  /\ (@first_get mock_env (boot unavailable)).1
     = GetResponse 503 (JsonValue (JObj [("tools", JArr [named_tool "ghost"])]))
  /\ 503 <> 200
  /\ (@second_get mock_env (boot unavailable)).1
     = GetResponse 503 (JsonValue (JObj [("tools", JArr [named_tool "ghost"])]))
  /\ (@fetch_all_tools mock_env (boot unavailable)).1 = []
  /\ tool_to_server (client (@fetch_all_tools mock_env (boot unavailable)).2)
     = tool_to_server (client (boot unavailable))
  /\ events_since (boot unavailable) (@fetch_all_tools mock_env (boot unavailable)).2
     = [EvGet "http://mcp-filesystem:3001/tools"; EvGet "http://mcp-calculator:3002/tools"].
Proof.
  split; [reflexivity|]. split; [reflexivity|]. split; [lia|]. split; [reflexivity|].
  apply (@non_success_status_is_silent mock_env (boot unavailable)
           503 (JsonValue (JObj [("tools", JArr [named_tool "ghost"])]))
           503 (JsonValue (JObj [("tools", JArr [named_tool "ghost"])])));
    (reflexivity || lia).
Defined.

Lemma catalog_and_routes_agree_witness :
  tools_cache (client (boot same_name_world)) = None
  /\ tool_to_server (client (boot same_name_world)) = empty
  /\ (is_Some (tool_to_server (client (@fetch_all_tools mock_env (boot same_name_world)).2)
                 !! "write")
      <-> JStr "write" ∈ map ts_name (@fetch_all_tools mock_env (boot same_name_world)).1).
Proof.
  split; [reflexivity|]. split; [reflexivity|].
  apply (@catalog_and_routes_agree mock_env (boot same_name_world) "write"); reflexivity.
Defined.

Lemma only_configured_endpoints_contacted_witness :
  configured_routes (env := mock_env) (tool_to_server (client (boot same_name_world)))
  /\ Forall (configured_contact (env := mock_env))
       (events_since (boot same_name_world)
          (do_calls (CallFetchAllTools :: later_calls) (boot same_name_world)))
  /\ post_requests
       (events_since (boot same_name_world)
          (do_calls (CallFetchAllTools :: later_calls) (boot same_name_world)))
     = [("http://mcp-calculator:3002/execute",
         JObj [("tool", JStr "read"); ("arguments", JNull)])].
Proof.
  assert (Hroutes : configured_routes (env := mock_env)
                      (tool_to_server (client (boot same_name_world)))).
  { intros tool_name server_url Hlookup. simpl in Hlookup.
    rewrite lookup_empty in Hlookup. discriminate. }
  split; [exact Hroutes|]. split; [|reflexivity].
  apply (@only_configured_endpoints_contacted mock_env (boot same_name_world)
           (CallFetchAllTools :: later_calls) Hroutes).
Defined.

Lemma well_formed_answers_translate_witness :
  tools_cache (client (boot same_name_world)) = None
  /\ (@first_get mock_env (boot same_name_world)).1
     = tools_answer [named_tool "read"; named_tool "write"]
  /\ (@second_get mock_env (boot same_name_world)).1
     = tools_answer [named_tool "add"; named_tool "read"]
  /\ (@fetch_all_tools mock_env (boot same_name_world)).1
     = map translate [named_tool "read"; named_tool "write"; named_tool "add"; named_tool "read"]
  /\ events_since (boot same_name_world) (@fetch_all_tools mock_env (boot same_name_world)).2
     = [EvGet "http://mcp-filesystem:3001/tools"; EvGet "http://mcp-calculator:3002/tools"].
Proof.
  split; [reflexivity|]. split; [reflexivity|]. split; [reflexivity|].
  assert (Hwf1 : Forall (fun tool_def => is_Some (tool_name_of tool_def))
                   [named_tool "read"; named_tool "write"]).
  { repeat (apply Forall_cons; split); try apply Forall_nil; eexists; reflexivity. }
  assert (Hwf2 : Forall (fun tool_def => is_Some (tool_name_of tool_def))
                   [named_tool "add"; named_tool "read"]).
  { repeat (apply Forall_cons; split); try apply Forall_nil; eexists; reflexivity. }
  destruct (@well_formed_answers_translate mock_env (boot same_name_world)
              200 [("tools", JArr [named_tool "read"; named_tool "write"])]
              [named_tool "read"; named_tool "write"]
              200 [("tools", JArr [named_tool "add"; named_tool "read"])]
              [named_tool "add"; named_tool "read"]
              eq_refl eq_refl eq_refl eq_refl Hwf1 eq_refl eq_refl eq_refl Hwf2)
    as (Hcatalog & _ & Hevents).
  split; [exact Hcatalog|exact Hevents].
Defined.

Lemma returning_turn_only_calls_backend_witness :
  @run_turn mock_env "m" [] (seed_locals "hi") (calc_sys [reply "max_tokens" mixed_blocks])
  = (Some (Truncated,
           {| response := "Response truncated due to max tokens"; turns := 1;
              tool_calls := [] |}),
     {| l_messages := [user_says "hi"; assistant mixed_blocks];
        l_tool_calls_log := []; l_turns := 1 |},
     truncated_sys)
  /\ Truncated <> Aborted
  /\ events_since (calc_sys [reply "max_tokens" mixed_blocks]) truncated_sys
     = [EvConverse "m" [user_says "hi"] None (reply "max_tokens" mixed_blocks)]
  /\ executed_tools (events_since (calc_sys [reply "max_tokens" mixed_blocks]) truncated_sys)
     = [].
Proof.
  assert (Hturn :
    @run_turn mock_env "m" [] (seed_locals "hi") (calc_sys [reply "max_tokens" mixed_blocks])
    = (Some (Truncated,
             {| response := "Response truncated due to max tokens"; turns := 1;
                tool_calls := [] |}),
       {| l_messages := [user_says "hi"; assistant mixed_blocks];
          l_tool_calls_log := []; l_turns := 1 |},
       truncated_sys)) by reflexivity.
  split; [exact Hturn|]. split; [discriminate|].
  destruct (@returning_turn_only_calls_backend mock_env _ _ _ _ _ _ _ _ Hturn)
    as (_ & _ & _ & _ & Hexec & Hquiet).
  destruct Hquiet as [Hevents _]; [left; discriminate|].
  split; [exact Hevents|exact Hexec].
Defined.

(** X8 at a turn that ends on an incomplete tool-use block: the tool
    use before it was logged and dispatched. *)
Example incomplete_tool_use_dispatches_first :
  option_map (fun x => (x.1.1, executed_tools (events_since (boot (calc_world [reply "tool_use" broken_blocks])) x.2)))
    (@run mock_env "m" "hi" 10 (boot (calc_world [reply "tool_use" broken_blocks])))
  = Some (Aborted,
          {| response := "Agent error: 'input'"; turns := 1;
             tool_calls := [{| tool := "calc"; input := calc_args; tool_use_id := "t1" |}] |},
          [("calc", calc_args)]).
Proof. reflexivity. Qed.

Lemma log_records_dispatches_witness :
  calc_run = Some calc_end
  /\ map call_of (tool_calls calc_end.1.1.2)
     = executed_tools (events_since (boot (calc_world calc_replies)) calc_end.2)
  /\ map call_of (tool_calls calc_end.1.1.2) = [("calc", calc_args)].
Proof.
  split; [reflexivity|]. split; [|reflexivity].
  apply (@log_records_dispatches mock_env "m" "what is 6*7?" 10
           (boot (calc_world calc_replies))
           calc_end.1.1.1 calc_end.1.1.2 calc_end.1.2 calc_end.2).
  reflexivity.
Defined.

Lemma backend_requests_shape_witness :
  calc_run = Some calc_end
  /\ exists msgs,
       converse_requests (events_since (boot (calc_world calc_replies)) calc_end.2) !! 1%nat
       = Some ("m", msgs, Some (@fetch_all_tools mock_env (boot (calc_world calc_replies))).1)
       /\ exists tail, msgs = user_says "what is 6*7?" :: tail /\ length tail = 2%nat.
Proof.
  split; [reflexivity|]. eexists. split; [reflexivity|].
  eapply (@backend_requests_shape mock_env "m" "what is 6*7?" 10
            (boot (calc_world calc_replies))
            calc_end.1.1.1 calc_end.1.1.2 calc_end.1.2 calc_end.2 1%nat);
    reflexivity.
Defined.

Lemma run_fetches_catalog_once_witness :
  calc_run = Some calc_end
  /\ get_requests (events_since (boot (calc_world calc_replies)) calc_end.2)
     = ["http://mcp-filesystem:3001/tools"; "http://mcp-calculator:3002/tools"].
Proof.
  split; [reflexivity|].
  apply (@run_fetches_catalog_once mock_env "m" "what is 6*7?" 10
           (boot (calc_world calc_replies))
           calc_end.1.1.1 calc_end.1.1.2 calc_end.1.2 calc_end.2).
  reflexivity.
Defined.

Lemma run_outcome_from_last_result_witness :
  calc_run = Some calc_end
  /\ (calc_end.1.1.1 = Exhausted /\ response calc_end.1.1.2 = "Max turns reached"
      /\ Forall (fun x => requests_tools x = true)
           (converse_results (events_since (boot (calc_world calc_replies)) calc_end.2))
      \/ exists rs last,
           converse_results (events_since (boot (calc_world calc_replies)) calc_end.2)
           = rs ++ [last]
           /\ Forall (fun x => requests_tools x = true) rs
           /\ terminal_response last = Some (calc_end.1.1.1, response calc_end.1.1.2)).
Proof.
  split; [reflexivity|].
  apply (@run_outcome_from_last_result mock_env "m" "what is 6*7?" 10
           (boot (calc_world calc_replies))
           calc_end.1.1.1 calc_end.1.1.2 calc_end.1.2 calc_end.2).
  reflexivity.
Defined.

Lemma run_agent_answers_witness :
  req_max_turns (AgentRequest_default "what is 6*7?") = Some 10
  /\ exists r s',
       @run_agent mock_env "m" (AgentRequest_default "what is 6*7?")
         (boot (calc_world calc_replies))
       = Some (HttpOk r, s')
       /\ turns r
          = Z.of_nat (length (converse_results
                                (events_since (boot (calc_world calc_replies)) s')))
       /\ 0 <= turns r <= Z.max 0 10.
Proof.
  split; [reflexivity|].
  apply (@run_agent_answers mock_env "m" (AgentRequest_default "what is 6*7?") 10
           (boot (calc_world calc_replies))).
  reflexivity.
Defined.

Lemma run_agent_null_budget_witness :
  req_max_turns null_request = None
  /\ @run_agent mock_env "m" null_request (boot (calc_world calc_replies))
     = Some (HTTPException 500
               "'<' not supported between instances of 'int' and 'NoneType'",
             calc_sys calc_replies)
  /\ trace (calc_sys calc_replies)
     = [EvGet "http://mcp-filesystem:3001/tools"; EvGet "http://mcp-calculator:3002/tools"].
Proof.
  split; [reflexivity|]. split; [|reflexivity].
  apply (@run_agent_null_budget mock_env "m" null_request (boot (calc_world calc_replies))).
  reflexivity.
Defined.

Lemma list_tools_warms_cache_witness :
  @list_tools mock_env (boot (calc_world calc_replies))
  = (HttpOk {| tl_tools := (@fetch_all_tools mock_env (boot (calc_world calc_replies))).1;
               tl_count := 1 |},
     calc_sys calc_replies)
  /\ tl_count {| tl_tools := (@fetch_all_tools mock_env (boot (calc_world calc_replies))).1;
                 tl_count := 1 |}
     = Z.of_nat (length (@fetch_all_tools mock_env (boot (calc_world calc_replies))).1).
Proof.
  split; [reflexivity|].
  apply (@list_tools_warms_cache mock_env (boot (calc_world calc_replies))
           {| tl_tools := (@fetch_all_tools mock_env (boot (calc_world calc_replies))).1;
              tl_count := 1 |}
           (calc_sys calc_replies)).
  reflexivity.
Defined.


(** ** Overlapping fetches on the scripted world *)

Lemma tools_cache_frozen_witness :
  tools_cache (client (boot outage)) = None
  /\ unread (@first_get mock_env (boot outage)).1 = true
  /\ unread (@second_get mock_env (boot outage)).1 = true
  /\ (@fetch_all_tools mock_env (boot outage)).1 = []
  /\ p_fetches (steps later_steps (quiet (@fetch_all_tools mock_env (boot outage)).2)) = []
  /\ get_requests
       (events_since (@fetch_all_tools mock_env (boot outage)).2
          (p_sys (steps later_steps (quiet (@fetch_all_tools mock_env (boot outage)).2))))
     = []
  /\ @fetch_all_tools mock_env
       (p_sys (steps later_steps (quiet (@fetch_all_tools mock_env (boot outage)).2)))
     = ([], p_sys (steps later_steps (quiet (@fetch_all_tools mock_env (boot outage)).2))).
Proof.
  split; [reflexivity|]. split; [reflexivity|]. split; [reflexivity|].
  destruct (@tools_cache_frozen mock_env (boot outage) later_steps)
    as (_ & _ & Hempty & _ & Hquiet & Hgets & Hfetch).
  pose proof (Hempty eq_refl eq_refl eq_refl) as Hnil.
  split; [exact Hnil|]. split; [exact Hquiet|]. split; [exact Hgets|].
  rewrite Hfetch, Hnil. reflexivity.
Defined.

(** C9 at a schedule that refutes it.  Two requests arrive while both
    endpoints are down, and both fetches find the cache empty.  The
    first ends during the outage and fills the cache with the empty
    list; the second is still in flight.  The endpoints come up, the
    second fetch gets its answers and assigns the cache again: the
    filled cache and the lookup map are modified, by two GETs sent
    after the cache was filled, and a later [fetch_all_tools] returns
    four tools where the first returned none. *)
Lemma overlapping_fetch_overwrites_cache :
  tools_cache (client (p_sys (steps first_fetch_ends (quiet (boot outage))))) = Some []
  /\ tool_to_server (client (p_sys (steps first_fetch_ends (quiet (boot outage))))) = ∅
  /\ length (p_fetches (steps first_fetch_ends (quiet (boot outage)))) = 1%nat
  /\ get_requests
       (events_since (p_sys (steps first_fetch_ends (quiet (boot outage))))
          (p_sys (steps second_fetch_ends (steps first_fetch_ends (quiet (boot outage))))))
     = ["http://mcp-filesystem:3001/tools"; "http://mcp-calculator:3002/tools"]
  /\ tool_to_server
       (client (p_sys (steps second_fetch_ends
                         (steps first_fetch_ends (quiet (boot outage)))))) !! "read"
     = Some "http://mcp-calculator:3002"
  /\ map ts_name
       (@fetch_all_tools mock_env
          (p_sys (steps second_fetch_ends
                    (steps first_fetch_ends (quiet (boot outage)))))).1
     = [JStr "read"; JStr "write"; JStr "add"; JStr "read"].
Proof.
  split; [reflexivity|]. split; [reflexivity|]. split; [reflexivity|].
  split; [reflexivity|]. split; [reflexivity|]. reflexivity.
Qed.
